(** * langroid: the docker-chat agent and the Azure OpenAI wrapper

    A shallow embedding of
    - [examples/dockerchat/docker_chat_agent.py] (the [DockerChatAgent]
      handlers, its fallback and its delegation step),
    - [examples/dockerchat/dockerchat_agent_messages.py] (the message
      classes and their request names),
    - [langroid/language_models/azure_openai.py] ([AzureGPT.__init__]),
    followed by the properties established about them.

    Conventions.  A Python [str] is a [string]; each character of the
    [string] stands for one Python character (code points below 256), so
    [String.length] is Python's [len] and the order on characters is the
    order on code points.  [None] is [None] of an [option].  A Python
    exception is a value of [exn]; a computation that may raise returns an
    [Outcome]. *)

From Stdlib Require Import String Ascii List Bool Arith Lia ZArith.
Import ListNotations.
Open Scope string_scope.

Set Implicit Arguments.

(* ================================================================== *)
(** * Python strings *)
(* ================================================================== *)

Module PyStr.

(** The newline character and the double quote, which string literals
    of the sources contain. *)
Definition nl : string := String (ascii_of_nat 10) EmptyString.
Definition dquote : string := String (ascii_of_nat 34) EmptyString.

(** [s.startswith(p)] *)
Fixpoint startswith (p s : string) : bool :=
  match p, s with
  | EmptyString, _ => true
  | String _ _, EmptyString => false
  | String a p', String b s' => Ascii.eqb a b && startswith p' s'
  end.

(** [s.endswith(p)], used by [os.path.join]. *)
Fixpoint endswith_char (c : ascii) (s : string) : bool :=
  match s with
  | EmptyString => false
  | String a EmptyString => Ascii.eqb a c
  | String _ s' => endswith_char c s'
  end.

(** [needle in hay] on strings: [needle] occurs as a contiguous
    substring of [hay]. *)
Fixpoint contains (needle hay : string) : bool :=
  startswith needle hay
  || match hay with
     | EmptyString => false
     | String _ hay' => contains needle hay'
     end.

(** What [in] decides: an occurrence, with what precedes and follows. *)
Definition occurs_in (needle hay : string) : Prop :=
  exists pre post, hay = pre ++ needle ++ post.

(** [sep.join(parts)] *)
Definition join (sep : string) (parts : list string) : string :=
  String.concat sep parts.

(** [s.lower()] on the ASCII letters. *)
Definition lower_char (c : ascii) : ascii :=
  let n := nat_of_ascii c in
  if Nat.leb 65 n && Nat.leb n 90 then ascii_of_nat (n + 32) else c.

Fixpoint lower (s : string) : string :=
  match s with
  | EmptyString => EmptyString
  | String c s' => String (lower_char c) (lower s')
  end.

(** [a >= b] on strings: Python compares character by character, a
    proper prefix being smaller. *)
Definition ge (a b : string) : bool :=
  match String.compare a b with
  | Lt => false
  | _ => true
  end.

(** The lexicographic order that [>=] decides, stated on its own. *)
Inductive lex_lt : string -> string -> Prop :=
| lex_lt_prefix : forall c t, lex_lt EmptyString (String c t)
| lex_lt_head : forall c d s t,
    nat_of_ascii c < nat_of_ascii d -> lex_lt (String c s) (String d t)
| lex_lt_tail : forall c s t, lex_lt s t -> lex_lt (String c s) (String c t).

Definition lex_ge (a b : string) : Prop := a = b \/ lex_lt b a.

(** Truth value of an optional string: [None] and [""] are falsy. *)
Definition truthy (o : option string) : bool :=
  match o with
  | None => false
  | Some EmptyString => false
  | Some (String _ _) => true
  end.

(** [x in l] on a list of strings. *)
Definition mem (x : string) (l : list string) : bool :=
  existsb (String.eqb x) l.

End PyStr.

(* ================================================================== *)
(** * Exceptions and outcomes *)
(* ================================================================== *)

(** The exception classes the sources raise, catch or let through.
    [ImageNotFound] belongs to the [DockerException] family. *)
Inductive exn : Type :=
| ValueError (msg : string)
| TypeError (msg : string)
| AttributeError (msg : string)
| KeyError (key : string)
| DockerException (msg : string)
| ImageNotFound (msg : string)
| OtherError (msg : string).

(** [str(e)] *)
Definition exn_str (e : exn) : string :=
  match e with
  | ValueError m | TypeError m | AttributeError m | KeyError m
  | DockerException m | ImageNotFound m | OtherError m => m
  end.

(** [isinstance(e, docker.errors.DockerException)] *)
Definition is_DockerException (e : exn) : bool :=
  match e with
  | DockerException _ | ImageNotFound _ => true
  | _ => false
  end.

(** [isinstance(e, docker.errors.ImageNotFound)] *)
Definition is_ImageNotFound (e : exn) : bool :=
  match e with
  | ImageNotFound _ => true
  | _ => false
  end.

Definition is_ValueError (e : exn) : bool :=
  match e with
  | ValueError _ => true
  | _ => false
  end.

Inductive Outcome (A : Type) : Type :=
| Ret (a : A)
| Raise (e : exn).
Arguments Ret {A} a.
Arguments Raise {A} e.

Definition raises {A : Type} (o : Outcome A) : bool :=
  match o with
  | Ret _ => false
  | Raise _ => true
  end.

Definition raises_ValueError {A : Type} (o : Outcome A) : bool :=
  match o with
  | Ret _ => false
  | Raise e => is_ValueError e
  end.

(* ================================================================== *)
(** * langroid/language_models/azure_openai.py *)
(* ================================================================== *)

Module Azure.

Definition azureStructuredOutputList : list string :=
  ["2024-08-06"; "2024-11-20"].

Definition azureStructuredOutputAPIMin : string := "2024-08-01-preview".

Section AzureGPT.

(** The SDK clients [AzureOpenAI] and [AsyncAzureOpenAI], and the part of
    the object that [OpenAIGPT.__init__] builds.  Their code is outside
    the sources at hand; they are parameters, and they return normally. *)
Variables SyncClient AsyncClient OpenAIGPT : Type.

(** [class AzureConfig(OpenAIGPTConfig)].  [chat_model] and [timeout] are
    the two inherited fields that [AzureGPT.__init__] touches.  A provider
    is a callable or [None]. *)
Record AzureConfig : Type := mkAzureConfig {
  api_key : string;
  type : string;
  api_version : string;
  deployment_name : string;
  model_name : string;
  model_version : string;
  api_base : string;
  azure_openai_client_provider : option (unit -> SyncClient);
  azure_openai_async_client_provider : option (unit -> AsyncClient);
  chat_model : string;
  timeout : Z
}.

(** The field defaults of the class, for given inherited values. *)
Definition AzureConfig_default (inherited_chat_model : string)
    (inherited_timeout : Z) : AzureConfig :=
  {| api_key := "";
     type := "azure";
     api_version := "2023-05-15";
     deployment_name := "";
     model_name := "";
     model_version := "";
     api_base := "";
     azure_openai_client_provider := None;
     azure_openai_async_client_provider := None;
     chat_model := inherited_chat_model;
     timeout := inherited_timeout |}.

Definition set_chat_model (v : string) (c : AzureConfig) : AzureConfig :=
  {| api_key := api_key c;
     type := type c;
     api_version := api_version c;
     deployment_name := deployment_name c;
     model_name := model_name c;
     model_version := model_version c;
     api_base := api_base c;
     azure_openai_client_provider := azure_openai_client_provider c;
     azure_openai_async_client_provider :=
       azure_openai_async_client_provider c;
     chat_model := v;
     timeout := timeout c |}.

(** [super().__init__(config)] *)
Variable OpenAIGPT_init : AzureConfig -> OpenAIGPT.

(** [AzureOpenAI(api_key=, azure_endpoint=, api_version=,
    azure_deployment=)] *)
Variable new_AzureOpenAI : string -> string -> string -> string -> SyncClient.

(** [AsyncAzureOpenAI(api_key=, azure_endpoint=, api_version=,
    azure_deployment=, timeout=Timeout(...))] *)
Variable new_AsyncAzureOpenAI :
  string -> string -> string -> string -> Z -> AsyncClient.

(** [client.timeout = Timeout(t)] *)
Variable with_timeout : AsyncClient -> Z -> AsyncClient.

(** The attributes of an [AzureGPT] object once [__init__] has returned,
    with the warnings it logged on the way. *)
Record AzureGPT : Type := mkAzureGPT {
  parent : OpenAIGPT;
  config : AzureConfig;
  self_deployment_name : string;
  client : option SyncClient;
  async_client : option AsyncClient;
  supports_json_schema : bool;
  warnings : list string
}.

Definition MSG_DEPLOYMENT_NAME : string :=
  PyStr.nl ++
  "                AZURE_OPENAI_DEPLOYMENT_NAME not set in .env file," ++
  PyStr.nl ++
  "                please set it to your Azure openai deployment name.".

Definition MSG_MODEL_NAME : string :=
  PyStr.nl ++
  "                AZURE_OPENAI_MODEL_NAME not set in .env file," ++
  PyStr.nl ++
  "                please set it to chat model name in your deployment.".

Definition MSG_API_KEY : string :=
  PyStr.nl ++
  "                    AZURE_OPENAI_API_KEY not set in .env file," ++
  PyStr.nl ++
  "                    please set it to your Azure API key.".

Definition MSG_API_BASE : string :=
  PyStr.nl ++
  "                    AZURE_OPENAI_API_BASE not set in .env file," ++
  PyStr.nl ++
  "                    please set it to your Azure API key.".

Definition WARN_ONLY_ASYNC : string :=
  "Using user-provided Azure OpenAI client, but only async " ++
  "client has been provided. Synchronous calls will fail.".

Definition WARN_NO_ASYNC : string :=
  "Using user-provided Azure OpenAI client, but no async " ++
  "client has been provided. Asynchronous calls will fail.".

(** Truth value of a provider: a callable is true, [None] is false. *)
Definition given {A : Type} (p : option A) : bool :=
  match p with
  | Some _ => true
  | None => false
  end.

(** The value assigned to [self.supports_json_schema]. *)
Definition json_schema_supported (c : AzureConfig) : bool :=
  PyStr.ge (api_version c) azureStructuredOutputAPIMin
  && PyStr.mem (model_version c) azureStructuredOutputList.

(** The clients of the branch in which a provider was supplied, and the
    warnings logged there. *)
Definition provided_clients (c : AzureConfig)
    : option SyncClient * option AsyncClient * list string :=
  let w1 := if given (azure_openai_client_provider c)
            then [] else [WARN_ONLY_ASYNC] in
  let w2 := if given (azure_openai_async_client_provider c)
            then [] else [WARN_NO_ASYNC] in
  let cl := match azure_openai_client_provider c with
            | Some mk => Some (mk tt)
            | None => None
            end in
  let acl := match azure_openai_async_client_provider c with
             | Some mk => Some (with_timeout (mk tt) (timeout c))
             | None => None
             end in
  (cl, acl, (w1 ++ w2)%list).

(** The clients of the branch that builds them from the credentials. *)
Definition built_clients (c : AzureConfig)
    : option SyncClient * option AsyncClient * list string :=
  (Some (new_AzureOpenAI (api_key c) (api_base c) (api_version c)
           (deployment_name c)),
   Some (new_AsyncAzureOpenAI (api_key c) (api_base c) (api_version c)
           (deployment_name c) (timeout c)),
   []).

Definition finish (c : AzureConfig)
    (cs : option SyncClient * option AsyncClient * list string) : AzureGPT :=
  let '(cl, acl, ws) := cs in
  {| parent := OpenAIGPT_init c;
     config := set_chat_model (model_name c) c;
     self_deployment_name := deployment_name c;
     client := cl;
     async_client := acl;
     supports_json_schema := json_schema_supported c;
     warnings := ws |}.

(** [AzureGPT.__init__(self, config)]: the object, or the exception that
    leaves the constructor. *)
Definition AzureGPT_init (c : AzureConfig) : Outcome AzureGPT :=
  if String.eqb (deployment_name c) "" then
    Raise (ValueError MSG_DEPLOYMENT_NAME)
  else if String.eqb (model_name c) "" then
    Raise (ValueError MSG_MODEL_NAME)
  else if given (azure_openai_client_provider c)
          || given (azure_openai_async_client_provider c) then
    Ret (finish c (provided_clients c))
  else if String.eqb (api_key c) "" then
    Raise (ValueError MSG_API_KEY)
  else if String.eqb (api_base c) "" then
    Raise (ValueError MSG_API_BASE)
  else
    Ret (finish c (built_clients c)).

(** The configurations that the constructor refuses. *)
Definition incomplete (c : AzureConfig) : Prop :=
  deployment_name c = ""
  \/ model_name c = ""
  \/ (azure_openai_client_provider c = None
      /\ azure_openai_async_client_provider c = None
      /\ (api_key c = "" \/ api_base c = "")).

Definition incompleteb (c : AzureConfig) : bool :=
  String.eqb (deployment_name c) ""
  || String.eqb (model_name c) ""
  || (negb (given (azure_openai_client_provider c))
      && negb (given (azure_openai_async_client_provider c))
      && (String.eqb (api_key c) "" || String.eqb (api_base c) "")).

End AzureGPT.

End Azure.

(* ================================================================== *)
(** * examples/dockerchat/dockerchat_agent_messages.py *)
(* ================================================================== *)

Module Messages.

(** The data fields of each message class.  [purpose] is prompt text and
    is left out; [request] and [examples] are class-level and live in the
    [AgentMessage] instances below. *)

Record AskURLMessage : Type := { ask_url_result : string }.

Record RunPythonMessage : Type := { code : string; run_python_result : string }.

Record FileExistsMessage : Type := {
  filename : string;
  file_exists_result : string
}.

Record PythonVersionMessage : Type := { python_version_result : string }.

(** [Union[str, List[str]]] *)
Inductive StrOrLines : Type :=
| Str (s : string)
| Lines (l : list string).

Record ValidateDockerfileMessage : Type := {
  proposed_dockerfile : StrOrLines;
  validate_dockerfile_result : string
}.

Record PythonDependencyMessage : Type := { python_dependency_result : string }.

Record EntryPointAndCMDMessage : Type := { find_entrypoint_result : string }.

Record RunContainerMessage : Type := {
  test : string;
  location : string;
  run : string;
  run_container_result : string
}.

(** What every subclass of [AgentMessage] declares: the default of its
    [request] field and how many [examples()] it lists. *)
Class AgentMessage (T : Type) : Type := {
  request : string;
  examples_count : nat
}.
Arguments request T {_}.
Arguments examples_count T {_}.

#[global] Instance AskURL_msg : AgentMessage AskURLMessage :=
  {| request := "ask_url"; examples_count := 1 |}.
#[global] Instance RunPython_msg : AgentMessage RunPythonMessage :=
  {| request := "run_python"; examples_count := 1 |}.
#[global] Instance FileExists_msg : AgentMessage FileExistsMessage :=
  {| request := "file_exists"; examples_count := 1 |}.
#[global] Instance PythonVersion_msg : AgentMessage PythonVersionMessage :=
  {| request := "python_version"; examples_count := 2 |}.
#[global] Instance ValidateDockerfile_msg
  : AgentMessage ValidateDockerfileMessage :=
  {| request := "validate_dockerfile"; examples_count := 2 |}.
#[global] Instance PythonDependency_msg
  : AgentMessage PythonDependencyMessage :=
  {| request := "python_dependency"; examples_count := 3 |}.
#[global] Instance EntryPointAndCMD_msg
  : AgentMessage EntryPointAndCMDMessage :=
  {| request := "find_entrypoint"; examples_count := 3 |}.
#[global] Instance RunContainer_msg : AgentMessage RunContainerMessage :=
  {| request := "run_container"; examples_count := 2 |}.

(** A message class packed with its declarations. *)
Inductive MessageType : Type :=
| MsgType (class_name : string) (T : Type) (decl : AgentMessage T).
Arguments MsgType class_name T decl : clear implicits.

Definition class_name_of (m : MessageType) : string :=
  match m with
  | MsgType n _ _ => n
  end.

Definition request_of (m : MessageType) : string :=
  match m with
  | MsgType _ T _ => request T
  end.

(** The classes of the module, in the order in which it defines them. *)
Definition message_types : list MessageType :=
  [ MsgType "AskURLMessage" AskURLMessage AskURL_msg;
    MsgType "RunPythonMessage" RunPythonMessage RunPython_msg;
    MsgType "FileExistsMessage" FileExistsMessage FileExists_msg;
    MsgType "PythonVersionMessage" PythonVersionMessage PythonVersion_msg;
    MsgType "ValidateDockerfileMessage" ValidateDockerfileMessage ValidateDockerfile_msg;
    MsgType "PythonDependencyMessage" PythonDependencyMessage PythonDependency_msg;
    MsgType "EntryPointAndCMDMessage" EntryPointAndCMDMessage EntryPointAndCMD_msg;
    MsgType "RunContainerMessage" RunContainerMessage RunContainer_msg ].

(** The request names, in the same order. *)
Definition requests : list string := map request_of message_types.

End Messages.

(* ================================================================== *)
(** * examples/dockerchat/docker_chat_agent.py *)
(* ================================================================== *)

Module DockerChat.

Import Messages.

Definition DEFAULT_URL : string := "https://github.com/eugeneyan/testing-ml".

Definition NO_ANSWER : string := "I don't know".

(** The methods that [class DockerChatAgent] defines, in source order. *)
Definition DockerChatAgent_methods : list string :=
  [ "process_pending_message";
    "handle_message_fallback";
    "run_python";
    "ask_url";
    "python_version";
    "file_exists";
    "python_dependency";
    "_cleanup_dockerfile";
    "_save_dockerfile";
    "_build_docker_image";
    "validate_dockerfile";
    "find_entrypoint" ].

(** [hasattr(DockerChatAgent, name)] over the methods of the class. *)
Definition has_method (name : string) : bool :=
  PyStr.mem name DockerChatAgent_methods.

(** A dictionary whose values are sequences, as [RepoLoader.select]
    returns; only [len] and the key ["files"] are used on it. *)
Definition Dict : Type := list (string * list string).

Fixpoint dict_get (k : string) (d : Dict) : Outcome (list string) :=
  match d with
  | [] => Raise (KeyError k)
  | (k', v) :: d' => if String.eqb k k' then Ret v else dict_get k d'
  end.

(** [os.path.join(a, b)] on POSIX paths. *)
Definition os_path_join (a b : string) : string :=
  if PyStr.startswith "/" b then b
  else if String.eqb a "" then b
  else if PyStr.endswith_char "/"%char a then a ++ b
  else a ++ "/" ++ b.

(** [f"{x}"] for a value that is a string or [None]. *)
Definition fmt (o : option string) : string :=
  match o with
  | Some s => s
  | None => "None"
  end.

(** The string literals of the handlers. *)
Definition MSG_URL_NOT_SENT : string :=
  PyStr.nl ++
  "            You have not sent me the URL for the repo yet. " ++ PyStr.nl ++
  "            Please ask me for the URL, and once you receive it, " ++
  PyStr.nl ++
  "            send it to me for confirmation. Once I confirm the URL, " ++
  PyStr.nl ++
  "            you can proceed." ++ PyStr.nl ++
  "            ".

Definition MSG_YES_FILE (filename : string) : string :=
  PyStr.nl ++
  "            Yes, there is a file named " ++ filename ++ " in the repo.".

Definition MSG_NO_FILE (filename : string) : string :=
  PyStr.nl ++
  "            No, there is no file named " ++ filename ++ " in the repo.".

Definition MSG_INVALID_PARAMETER : string :=
  PyStr.nl ++
  "            The `proposed_dockerfile` parameter is invalid;" ++ PyStr.nl ++
  "            Note this parameter should contain the CONTENTS of the " ++
  PyStr.nl ++
  "            proposed dockerfile, NOT the NAME of the Dockerfile" ++
  PyStr.nl ++
  "            ".

Definition MSG_NOT_READY : string :=
  PyStr.dquote ++ PyStr.nl ++
  "                    Not ready for dockerfile validation, please " ++
  PyStr.nl ++
  "                    continue with your next question or request for information." ++
  PyStr.nl ++
  "                    ".

Definition REQ_PYTHON_VERSION : string :=
  "What is the Python version of this repo?".

Definition REQ_FILE_EXISTS (filename : string) : string :=
  "Does this project contain a file named " ++ filename ++ "?".

Definition REQ_DEPENDENCY : string :=
  "Which file is used to manage dependencies in this project?".

Definition REQ_ENTRYPOINT : string :=
  "What's the name of main script in this repo and can you SPECIFY " ++
  PyStr.nl ++
  "            the command line and necessary arguments to run the main script? " ++
  PyStr.nl ++
  "            If there are more than one main script, then SPECIFY the commands " ++
  PyStr.nl ++
  "            and necessary arguments corresponding to each one" ++ PyStr.nl ++
  "            ".

Definition MSG_RUN_PYTHON_PLACEHOLDER (code : string) : string :=
  PyStr.nl ++
  "        This is a placeholder for the run_python method." ++ PyStr.nl ++
  "        Here is the code:" ++ PyStr.nl ++
  "        " ++ code ++ PyStr.nl ++
  "        ".

(** What the agent does to the outside, in order. *)
Inductive Event : Type :=
| AskAgent (request no_answer : string) (user_confirm : bool)
| DoTask (msg : string) (main : bool)
| GetPythonVersion (path : string)
| IdentifyDependencyManagement (path : string)
| RepoSelect (includes : list string)
| PromptAsk (prompt : string)
| OpenWrite (path text : string)
| ImagesBuild (path : option string) (tag dockerfile : string)
| PathExists (path : string)
| OsRemove (path : string)
| ImagesRemove (img_id : string)
| ImagesGet (img_id : string)
| Log (level text : string).

(** Logging apart, every event is a call to a collaborator. *)
Definition is_collaborator_call (e : Event) : bool :=
  match e with
  | Log _ _ => false
  | _ => true
  end.

Section Agent.

(** The state of the delegated [CodeChatAgent], a built docker image, a
    message object of the task loop (only its [content] is read here), the
    repository tree of [RepoLoader.load], and whatever else [ChatAgent]
    keeps about its task. *)
Variables SubAgent Image Message Tree Task : Type.
Variable content : Message -> string.
Variable image_id : Image -> string.

(** The part of the object that the base class [ChatAgent] owns. *)
Record ChatAgent : Type := mkChatAgent {
  current_response : option Message;
  pending_message : option Message;
  task : Task
}.

(** [class DockerChatAgent(ChatAgent)] *)
Record DockerChatAgent : Type := mkDockerChatAgent {
  base : ChatAgent;
  url : string;
  repo_tree : option Tree;
  repo_path : option string;
  code_chat_agent : option SubAgent
}.

(** The object as the class body initialises its own fields. *)
Definition DockerChatAgent_new (b : ChatAgent) : DockerChatAgent :=
  {| base := b;
     url := "https://github.com/eugeneyan/testing-ml";
     repo_tree := None;
     repo_path := None;
     code_chat_agent := None |}.

(** The agent together with the record of what it has done. *)
Record World : Type := mkWorld {
  self : DockerChatAgent;
  events : list Event
}.

(** A method body: it reads and updates the world, and returns or
    raises.  Updates made before a [raise] stay. *)
Definition M (A : Type) : Type := World -> Outcome A * World.

Definition ret {A : Type} (a : A) : M A := fun w => (Ret a, w).

Definition raise {A : Type} (e : exn) : M A := fun w => (Raise e, w).

Definition bind {A B : Type} (c : M A) (k : A -> M B) : M B :=
  fun w =>
    match c w with
    | (Ret a, w') => k a w'
    | (Raise e, w') => (Raise e, w')
    end.

(** [try: c except <class>: h] *)
Definition try_except {A : Type} (c : M A) (caught : exn -> bool)
    (h : exn -> M A) : M A :=
  fun w =>
    match c w with
    | (Ret a, w') => (Ret a, w')
    | (Raise e, w') => if caught e then h e w' else (Raise e, w')
    end.

Definition get_self : M DockerChatAgent := fun w => (Ret (self w), w).

Definition put_self (a : DockerChatAgent) : M unit :=
  fun w => (Ret tt, {| self := a; events := events w |}).

Definition emit (e : Event) : M unit :=
  fun w => (Ret tt, {| self := self w; events := (events w ++ [e])%list |}).

Definition lift {A : Type} (o : Outcome A) : M A := fun w => (o, w).

Notation "x <- c1 ;; c2" := (bind c1 (fun x => c2))
  (at level 61, c1 at next level, right associativity).
Notation "c1 ;; c2" := (bind c1 (fun _ => c2))
  (at level 61, right associativity).

Definition set_base (b : ChatAgent) (a : DockerChatAgent) : DockerChatAgent :=
  {| base := b;
     url := url a;
     repo_tree := repo_tree a;
     repo_path := repo_path a;
     code_chat_agent := code_chat_agent a |}.

Definition set_code_chat_agent (s : option SubAgent) (a : DockerChatAgent)
    : DockerChatAgent :=
  {| base := base a;
     url := url a;
     repo_tree := repo_tree a;
     repo_path := repo_path a;
     code_chat_agent := s |}.

Definition set_current_response (r : option Message) (b : ChatAgent)
    : ChatAgent :=
  {| current_response := r;
     pending_message := pending_message b;
     task := task b |}.

Definition set_pending_message (r : option Message) (b : ChatAgent)
    : ChatAgent :=
  {| current_response := current_response b;
     pending_message := r;
     task := task b |}.

(** The collaborators.  Their code is outside the sources at hand: the
    base class [ChatAgent], the code-chat agent, the repository loader,
    the two local analyses, the console prompt, the file system, the
    docker client and the clock.  A collaborator that the source calls
    inside [try] answers with an [Outcome]; the others return normally. *)
Record Env : Type := mkEnv {
  (** [ChatAgent.ask_agent(agent, request=, no_answer=, user_confirm=)]:
      the answer or [None], and the state in which it leaves the agent
      it asked. *)
  env_ask_agent :
    option SubAgent -> string -> string -> bool ->
    option string * option SubAgent;
  (** [CodeChatAgent.do_task(msg=, main=)] *)
  env_do_task : SubAgent -> string -> bool -> option Message * SubAgent;
  (** [ChatAgent.process_pending_message], which may dispatch to any
      handler of the object. *)
  env_super_process_pending_message : M unit;
  (** [ChatAgent.setup_task(msg=)], a method of the base class on the
      part of the object the base class owns. *)
  env_setup_task : string -> ChatAgent -> ChatAgent;
  env_get_python_version : string -> option string;
  env_identify_dependency_management : string -> option string;
  (** [RepoLoader.select(tree, includes=)] *)
  env_select : option Tree -> list string -> Dict;
  (** [Prompt.ask(prompt, choices=, default=)] *)
  env_prompt_ask : string -> list string -> string -> string;
  (** [open(path, "w")] followed by [f.write(text)] *)
  env_open_write : string -> string -> Outcome unit;
  (** [docker.from_env().images.build(rm=True, path=, tag=, dockerfile=)] *)
  env_images_build :
    option string -> string -> string -> Outcome (Image * list string);
  (** The seconds between the two readings of [time.time()] around the
      build, as ["{:.2f}".format] prints them. *)
  env_build_seconds : string;
  env_path_exists : string -> bool;
  env_os_remove : string -> Outcome unit;
  env_images_remove : string -> Outcome unit;
  env_images_get : string -> Outcome unit
}.

Variable env : Env.

(** ** Calls to the collaborators, each leaving its event *)

Definition ask_agent (agent : option SubAgent) (request no_answer : string)
    (user_confirm : bool) : M (option string) :=
  emit (AskAgent request no_answer user_confirm) ;;
  a <- get_self ;;
  let '(answer, agent') :=
    env_ask_agent env agent request no_answer user_confirm in
  put_self (set_code_chat_agent agent' a) ;;
  ret answer.

Definition get_python_version (path : string) : M (option string) :=
  emit (GetPythonVersion path) ;;
  ret (env_get_python_version env path).

Definition identify_dependency_management (path : string)
    : M (option string) :=
  emit (IdentifyDependencyManagement path) ;;
  ret (env_identify_dependency_management env path).

Definition RepoLoader_select (tree : option Tree) (includes : list string)
    : M Dict :=
  emit (RepoSelect includes) ;;
  ret (env_select env tree includes).

Definition Prompt_ask (prompt : string) (choices : list string)
    (default : string) : M string :=
  emit (PromptAsk prompt) ;;
  ret (env_prompt_ask env prompt choices default).

Definition open_write (path text : string) : M unit :=
  emit (OpenWrite path text) ;;
  lift (env_open_write env path text).

Definition images_build (path : option string) (tag dockerfile : string)
    : M (Image * list string) :=
  emit (ImagesBuild path tag dockerfile) ;;
  lift (env_images_build env path tag dockerfile).

Definition os_path_exists (path : string) : M bool :=
  emit (PathExists path) ;;
  ret (env_path_exists env path).

Definition os_remove (path : string) : M unit :=
  emit (OsRemove path) ;;
  lift (env_os_remove env path).

Definition images_remove (img_id : string) : M unit :=
  emit (ImagesRemove img_id) ;;
  lift (env_images_remove env img_id).

Definition images_get (img_id : string) : M unit :=
  emit (ImagesGet img_id) ;;
  lift (env_images_get env img_id).

Definition logger_error (text : string) : M unit := emit (Log "error" text).

Definition logger_info (text : string) : M unit := emit (Log "info" text).

Definition is_None {A : Type} (o : option A) : bool :=
  match o with
  | None => true
  | Some _ => false
  end.

(** ** The methods of [DockerChatAgent]

    [ask_url], which prompts until it has a valid URL and then clones and
    lists the repository, is the method that establishes [repo_path],
    [repo_tree] and [code_chat_agent]; the properties below start from
    the state it leaves and it is not embedded. *)

(** [process_pending_message]: after the base class has handled the
    pending message, a missing response is asked of the code-chat agent.
    The attribute [do_task] is looked up before the argument
    [self.pending_message.content] is evaluated. *)
Definition process_pending_message : M unit :=
  env_super_process_pending_message env ;;
  a <- get_self ;;
  match current_response (base a) with
  | Some _ => ret tt
  | None =>
      match code_chat_agent a with
      | None =>
          raise (AttributeError
                   "'NoneType' object has no attribute 'do_task'")
      | Some sub =>
          match pending_message (base a) with
          | None =>
              raise (AttributeError
                       "'NoneType' object has no attribute 'content'")
          | Some pending =>
              emit (DoTask (content pending) false) ;;
              let '(result, sub') :=
                env_do_task env sub (content pending) false in
              let a1 := set_code_chat_agent (Some sub') a in
              let a2 := set_base (set_current_response result (base a1)) a1 in
              put_self a2 ;;
              match result with
              | None => ret tt
              | Some r =>
                  let a3 :=
                    set_base (set_pending_message (Some r) (base a2)) a2 in
                  put_self
                    (set_base (env_setup_task env (content r) (base a3)) a3)
              end
          end
      end
  end.

(** [handle_message_fallback(input_str="")]: falling off the end of the
    body returns [None]. *)
Definition handle_message_fallback (input_str : string) : M (option string) :=
  a <- get_self ;;
  if is_None (repo_path a) && negb (PyStr.contains "URL" input_str)
  then ret (Some MSG_URL_NOT_SENT)
  else ret None.

Definition run_python (msg : RunPythonMessage) : M (option string) :=
  logger_error (MSG_RUN_PYTHON_PLACEHOLDER (code msg)) ;;
  ret (Some "No results, please continue asking your questions.").

Definition python_version (m : PythonVersionMessage) : M (option string) :=
  a <- get_self ;;
  match repo_path a with
  | None => handle_message_fallback ""
  | Some path =>
      answer <- ask_agent (code_chat_agent a) REQ_PYTHON_VERSION
                  NO_ANSWER false ;;
      match answer with
      | Some _ => ret answer
      | None =>
          answer <- get_python_version path ;;
          if PyStr.truthy answer then ret answer
          else
            logger_error "Could not determine Python version." ;;
            ret (Some "Couldn't identify the python version")
      end
  end.

Definition file_exists (message : FileExistsMessage) : M (option string) :=
  a <- get_self ;;
  match repo_path a with
  | None => handle_message_fallback ""
  | Some _ =>
      answer <- ask_agent (code_chat_agent a)
                  (REQ_FILE_EXISTS (filename message)) NO_ANSWER false ;;
      match answer with
      | Some _ => ret answer
      | None =>
          matches <- RepoLoader_select (repo_tree a) [filename message] ;;
          exists_ <-
            (if Nat.ltb 0 (List.length matches) then
               files <- lift (dict_get "files" matches) ;;
               ret (Nat.ltb 0 (List.length files))
             else ret false) ;;
          if exists_ : bool
          then ret (Some (MSG_YES_FILE (filename message)))
          else ret (Some (MSG_NO_FILE (filename message)))
      end
  end.

Definition python_dependency (m : PythonDependencyMessage)
    : M (option string) :=
  a <- get_self ;;
  match repo_path a with
  | None => handle_message_fallback ""
  | Some path =>
      answer <- ask_agent (code_chat_agent a) REQ_DEPENDENCY
                  NO_ANSWER false ;;
      match answer with
      | Some _ => ret answer
      | None =>
          python_dependency <- identify_dependency_management path ;;
          if PyStr.truthy python_dependency
          then ret (Some ("Dependencies in this repo are managed using: "
                          ++ fmt python_dependency))
          else ret (Some "Dependencies are not defined in this repo")
      end
  end.

(** [_cleanup_dockerfile]: only [ImageNotFound] is caught. *)
Definition _cleanup_dockerfile (img_id dockerfile_path : string) : M unit :=
  try_except
    (found <- os_path_exists dockerfile_path ;;
     (if found : bool then
        os_remove dockerfile_path ;;
        logger_info ("Dockerfile at path '" ++ dockerfile_path
                     ++ "' has been removed.")
      else
        logger_error ("No Dockerfile found at path '" ++ dockerfile_path
                      ++ "'.")) ;;
     images_remove img_id ;;
     images_get img_id ;;
     logger_error "Image removal failed!")
    is_ImageNotFound
    (fun _ => logger_info "Image removed successfully!").

(** [_save_dockerfile]: every exception is caught and turned into text;
    with no [repo_path], [os.path.join] is the call that raises. *)
Definition _save_dockerfile (dockerfile proposed_dockerfile_name : string)
    : M string :=
  try_except
    (a <- get_self ;;
     match repo_path a with
     | None =>
         raise (TypeError
                  "expected str, bytes or os.PathLike object, not NoneType")
     | Some path =>
         let full_path := os_path_join path proposed_dockerfile_name in
         open_write full_path dockerfile ;;
         ret full_path
     end)
    (fun _ => true)
    (fun e =>
       ret ("An error occurred while saving the Dockerfile: " ++ exn_str e)).

(** [_build_docker_image]: the image or [None], a message, the build
    time or [None].  Only the [DockerException] family is caught. *)
Definition _build_docker_image (proposed_doeckerfile_name img_tag : string)
    : M (option Image * string * option string) :=
  try_except
    (a <- get_self ;;
     built <- images_build (repo_path a) img_tag proposed_doeckerfile_name ;;
     let '(image, build_logs) := built in
     let formatted_build_time := env_build_seconds env in
     ret (Some image, "Image build successful!", Some formatted_build_time))
    is_DockerException
    (fun e => ret (None, "Image build failed: " ++ exn_str e, None)).

(** The text of [proposed_dockerfile] once a list has been joined; the
    source stores it back into the message, which it does not use
    otherwise. *)
Definition proposed_text (m : ValidateDockerfileMessage) : string :=
  match proposed_dockerfile m with
  | Str s => s
  | Lines l => PyStr.join PyStr.nl l
  end.

Definition validate_dockerfile (dockerfile_msg : ValidateDockerfileMessage)
    (confirm : bool) : M (option string) :=
  a <- get_self ;;
  if is_None (repo_path a) then handle_message_fallback ""
  else
    let proposed := proposed_text dockerfile_msg in
    if Nat.ltb (String.length proposed) 20
    then ret (Some MSG_INVALID_PARAMETER)
    else
      declined <-
        (if confirm then
           user_response <- Prompt_ask "Please confirm dockerfile validation"
                              ["y"; "n"] "y" ;;
           ret (negb (String.eqb (PyStr.lower user_response) "y"))
         else ret false) ;;
      if declined : bool then ret (Some MSG_NOT_READY)
      else
        let proposed_dockerfile_name := "Dockerfile_proposed" in
        let img_tag := "validate_img" in
        dockerfile_path <- _save_dockerfile proposed
                             proposed_dockerfile_name ;;
        if PyStr.startswith "An error" dockerfile_path
        then ret (Some dockerfile_path)
        else
          built <- _build_docker_image proposed_dockerfile_name img_tag ;;
          let '(img, build_log, build_time) := built in
          match img with
          | Some i =>
              _cleanup_dockerfile (image_id i) dockerfile_path ;;
              ret (Some ("Docker image built successfully and build time took:"
                         ++ fmt build_time ++ " Seconds..."))
          | None =>
              ret (Some ("Docker build failed with error message: "
                         ++ build_log))
          end.

Definition find_entrypoint (m : EntryPointAndCMDMessage)
    : M (option string) :=
  a <- get_self ;;
  if is_None (repo_path a) then handle_message_fallback ""
  else
    answer <- ask_agent (code_chat_agent a) REQ_ENTRYPOINT NO_ANSWER false ;;
    match answer with
    | Some _ => ret answer
    | None =>
        ret (Some
               "I couldn't identify potentail main scripts for the ENTRYPOINT")
    end.

(** ** Vocabulary for the properties below *)

(** The fallback as a function of [repo_path] and of the input alone. *)
Definition fallback_of (path : option string) (input_str : string)
    : option string :=
  if is_None path && negb (PyStr.contains "URL" input_str)
  then Some MSG_URL_NOT_SENT
  else None.

(** What the code-chat agent answers to [request] in world [w]. *)
Definition model_answer (w : World) (request : string) : option string :=
  fst (env_ask_agent env (code_chat_agent (self w)) request NO_ANSWER false).

(** The world after the code-chat agent has been asked. *)
Definition asked (w : World) (request : string) : World :=
  {| self :=
       set_code_chat_agent
         (snd (env_ask_agent env (code_chat_agent (self w)) request
                 NO_ANSWER false))
         (self w);
     events := (events w ++ [AskAgent request NO_ANSWER false])%list |}.

(** [file_exists] once the model has given no answer: the outcome of the
    lookup in what [RepoLoader.select] returned. *)
Definition lookup_files (matches : Dict) : Outcome bool :=
  if Nat.ltb 0 (List.length matches) then
    match dict_get "files" matches with
    | Ret files => Ret (Nat.ltb 0 (List.length files))
    | Raise e => Raise e
    end
  else Ret false.

(** The world with further events recorded. *)
Definition record (w : World) (es : list Event) : World :=
  {| self := self w; events := (events w ++ es)%list |}.

(** The step that asks for confirmation. *)
Definition confirmed (confirm : bool) : Prop :=
  confirm = true ->
  PyStr.lower
    (env_prompt_ask env "Please confirm dockerfile validation" ["y"; "n"] "y")
  = "y".

(** The event of that step. *)
Definition prompted (confirm : bool) : list Event :=
  if confirm then [PromptAsk "Please confirm dockerfile validation"] else [].

End Agent.

End DockerChat.

(** Modelled from the spec: [RepoLoader.select] and the tree that
    [RepoLoader.load] builds are not in the sources at hand.  The spec
    gives the repository-introspection collaborator as
    [select(tree, name_filters) -> matches], failing closed with an empty
    result.  A tree is taken at depth one, as the names of its directories
    and of its files; selection keeps the entries whose name is among the
    filters, and a tree that was never loaded gives the empty result. *)
Module Repo.

Record Listing : Type := mkListing {
  listing_dirs : list string;
  listing_files : list string
}.

Definition select (tree : option Listing) (includes : list string)
    : DockerChat.Dict :=
  match tree with
  | None => []
  | Some t =>
      [ ("dirs", filter (fun d => PyStr.mem d includes) (listing_dirs t));
        ("files", filter (fun f => PyStr.mem f includes) (listing_files t)) ]
  end.

End Repo.

(* ================================================================== *)
(** * [DockerChatAgent.ask_url] and the imports of its module *)
(* ================================================================== *)

Module AskUrl.

Import Messages DockerChat.

(** The names that [docker_chat_agent.py] imports from
    [examples.dockerchat.dockerchat_agent_messages], in source order. *)
Definition imported_message_names : list string :=
  [ "RunPython";
    "AskURLMessage";
    "FileExistsMessage";
    "PythonVersionMessage";
    "PythonDependencyMessage";
    "ValidateDockerfileMessage";
    "EntryPointAndCMDMessage" ].

(** The names that [dockerchat_agent_messages.py] defines. *)
Definition defined_message_names : list string :=
  map class_name_of message_types.

Definition DOCKER_CODE_CHAT_INSTRUCTIONS : string :=
  PyStr.nl ++
  "You are a savvy python programmer who has access to a python repository." ++
  PyStr.nl ++
  "Your would like to make a dockerfile for this repo, but you are NOT a " ++
  PyStr.nl ++
  "docker expert. I am a docker expert, and I know how to make a dockerfile" ++
  PyStr.nl ++
  "in general, but since I do not have access to the repo, I will rely on " ++
  PyStr.nl ++
  "you for information about the codebase. Your task is to answer my questions about " ++
  PyStr.nl ++
  "the codebase. You will be given various extracts from the codebase, " ++
  PyStr.nl ++
  "such as directory listings or file contents. You can use this information to answer" ++
  PyStr.nl ++
  "my questions. When answering my questions, keep in mind that my goal is to build a" ++
  PyStr.nl ++
  "Dockerfile for the codebase. For example, if I ask you if a certain file" ++
  PyStr.nl ++
  "exists, and it does not occur in the listings you are shown, then you can" ++
  PyStr.nl ++
  "simply answer " ++ PyStr.dquote ++ "No" ++ PyStr.dquote ++ ". " ++
  PyStr.nl.

Definition PROMPT_URL : string :=
  "[blue]Please enter the URL of the repo, or hit enter to use default".

Definition PROMPT_INVALID_URL (e : exn) : string :=
  "[blue]A valid URL was not seen: " ++ exn_str e ++ "; Please try again".

(** The text that [ask_url] returns, around the listing of the root of
    the repository. *)
Definition MSG_REPO_INFO (repo_listing : string) : string :=
  PyStr.nl ++
  "        Based on the URL, here is some information about the repo that you can use.  " ++
  PyStr.nl ++
  "        " ++
  PyStr.nl ++
  "        First, here is a list of ALL the files and directories at the ROOT of the " ++
  PyStr.nl ++
  "        repo. Any files of interest to you MUST be in this list, there you do NOT " ++
  PyStr.nl ++
  "        need to ask in future about whether any file exists." ++
  PyStr.nl ++
  "        " ++ repo_listing ++
  PyStr.nl ++
  "        In later parts of the conversation, only ask questions that CANNOT " ++
  PyStr.nl ++
  "        be answered by the information above. Do not ask for any info that is already " ++
  PyStr.nl ++
  "        provided above! " ++
  PyStr.nl ++
  "        ".

(** The exception Python raises on reading a local variable that no
    assignment has bound yet, with the wording of CPython up to 3.10; its
    class, [UnboundLocalError], is none of those that the sources
    catch. *)
Definition UnboundLocalError (variable : string) : exn :=
  OtherError ("UnboundLocalError: local variable '" ++ variable
              ++ "' referenced before assignment").

(** [class UrlModel(BaseModel)], with its one field. *)
Record UrlModel : Type := mkUrlModel { um_url : option string }.

Section AskUrl.

Variables SubAgent Message Tree Task LLMConfig : Type.

(** [CodeChatAgentConfig(name=, repo_url=, instructions=,
    content_includes=, content_excludes=, llm=)] *)
Record CodeChatAgentConfig : Type := mkCodeChatAgentConfig {
  cfg_name : string;
  cfg_repo_url : string;
  cfg_instructions : string;
  cfg_content_includes : list string;
  cfg_content_excludes : list string;
  cfg_llm : LLMConfig
}.

(** The collaborators of [ask_url].  What the user types may differ from
    one prompt to the next, so it is a function of what has happened so
    far.  [UrlModel(url=)] is the one call made inside [try]. *)
Record UrlEnv : Type := mkUrlEnv {
  (** [Prompt.ask(prompt)] *)
  url_typed : list Event -> string -> string;
  (** [UrlModel(url=)] *)
  url_validate : string -> Outcome UrlModel;
  (** [self.config.llm] *)
  url_config_llm : LLMConfig;
  (** [CodeChatAgent(cfg)] *)
  url_new_CodeChatAgent : CodeChatAgentConfig -> SubAgent;
  (** [RepoLoader(url, RepoLoaderConfig()).clone()] *)
  url_clone : string -> option string;
  (** The first component of [RepoLoader.load(depth=, lines=)] *)
  url_load : string -> nat -> nat -> Tree;
  (** [RepoLoader.ls(tree, depth=)] *)
  url_ls : Tree -> nat -> list string
}.

Variable uenv : UrlEnv.

Local Abbreviation M := (DockerChat.M SubAgent Message Tree Task).

Notation "x <- c1 ;; c2" := (bind c1 (fun x => c2))
  (at level 61, c1 at next level, right associativity).
Notation "c1 ;; c2" := (bind c1 (fun _ => c2))
  (at level 61, right associativity).

Definition ask (prompt : string) : M string :=
  fun w =>
    (Ret (url_typed uenv (events w) prompt),
     {| self := self w; events := (events w ++ [PromptAsk prompt])%list |}).

(** The body of [while True], at most [fuel] times.  [url_model] is the
    local variable of that name, [None] while nothing has been assigned
    to it.  The result is [None] when the loop has not ended within
    [fuel] rounds. *)
Fixpoint ask_url_loop (fuel : nat) (url_model : option UrlModel)
    : M (option UrlModel) :=
  match fuel with
  | O => ret None
  | S fuel' =>
      typed <- ask PROMPT_URL ;;
      let url := if String.eqb typed "" then DEFAULT_URL else typed in
      url_model <-
        try_except
          (m <- lift (url_validate uenv url) ;; ret (Some m))
          is_ValueError
          (fun e => ask (PROMPT_INVALID_URL e) ;; ret url_model) ;;
      match url_model with
      | None => raise (UnboundLocalError "url_model")
      | Some m =>
          match um_url m with
          | Some _ => ret (Some m)
          | None => ask_url_loop fuel' url_model
          end
      end
  end.

Definition code_chat_cfg (url : string) : CodeChatAgentConfig :=
  {| cfg_name := "Coder";
     cfg_repo_url := url;
     cfg_instructions := DOCKER_CODE_CHAT_INSTRUCTIONS;
     cfg_content_includes := ["txt"; "md"; "yml"; "yaml"; "sh"; "Makefile"];
     cfg_content_excludes := ["Dockerfile"];
     cfg_llm := url_config_llm uenv |}.

(** What [ask_url] assigns to the fields of the agent once the loop has
    ended with [url]. *)
Definition with_repo (url : string)
    (a : DockerChatAgent SubAgent Message Tree Task)
    : DockerChatAgent SubAgent Message Tree Task :=
  {| base := base a;
     url := url;
     repo_tree := Some (url_load uenv url 1 20);
     repo_path := url_clone uenv url;
     code_chat_agent := Some (url_new_CodeChatAgent uenv (code_chat_cfg url)) |}.

(** [ask_url(self, msg)]; [None] when the loop has not ended within
    [fuel] rounds. *)
Definition ask_url (fuel : nat) (msg : AskURLMessage) : M (option string) :=
  found <- ask_url_loop fuel None ;;
  match found with
  | None => ret None
  | Some url_model =>
      match um_url url_model with
      | None => ret None
      | Some url =>
          a <- @get_self SubAgent Message Tree Task ;;
          put_self (with_repo url a) ;;
          let repo_listing :=
            PyStr.join PyStr.nl
              (url_ls uenv (url_load uenv url 1 20) 1) in
          ret (Some (MSG_REPO_INFO repo_listing))
      end
  end.

(** The URL that a typed answer stands for. *)
Definition effective_url (typed : string) : string :=
  if String.eqb typed "" then DEFAULT_URL else typed.

End AskUrl.

End AskUrl.

(* ================================================================== *)
(** * Concrete configurations, agents and collaborators *)
(* ================================================================== *)

Module AzureSample.

Import Azure.

(** A configuration that builds its clients from the credentials, on the
    newest structured-output model. *)
Definition sample_config : AzureConfig unit unit :=
  {| api_key := "key";
     type := "azure";
     api_version := "2024-10-21";
     deployment_name := "prod";
     model_name := "gpt-4o";
     model_version := "2024-11-20";
     api_base := "https://example.openai.azure.com";
     azure_openai_client_provider := None;
     azure_openai_async_client_provider := None;
     chat_model := "";
     timeout := 20%Z |}.

Definition sample_gpt : AzureGPT unit unit unit :=
  finish (fun _ => tt) sample_config
    (built_clients (fun _ _ _ _ => tt) (fun _ _ _ _ _ => tt) sample_config).

End AzureSample.

Module Sample.

Import Messages DockerChat.

(** The code-chat agent counts the questions it was asked; an image is
    its id, a message its content, and the task its seed message. *)
Definition SubAgent : Type := nat.
Definition Image : Type := string.
Definition Message : Type := string.
Definition Task : Type := string.

Definition content (m : Message) : string := m.
Definition image_id (i : Image) : string := i.

Definition World : Type := DockerChat.World SubAgent Message Repo.Listing Task.

(** Collaborators for a given answer of the model and a given outcome of
    the docker build: the local analyses find nothing, the user accepts
    the default, files can be written, and a removed image is gone. *)
Definition make_env (answer : option string)
    (build : Outcome (Image * list string))
    : Env SubAgent Image Message Repo.Listing Task :=
  {| env_ask_agent :=
       fun agent _ _ _ => (answer, option_map S agent);
     env_do_task := fun sub msg _ => (Some ("Re: " ++ msg), S sub);
     env_super_process_pending_message := fun w => (Ret tt, w);
     env_setup_task :=
       fun msg b =>
         {| current_response := current_response b;
            pending_message := pending_message b;
            task := msg |};
     env_get_python_version := fun _ => None;
     env_identify_dependency_management := fun _ => None;
     env_select := Repo.select;
     env_prompt_ask := fun _ _ default => default;
     env_open_write := fun _ _ => Ret tt;
     env_images_build := fun _ _ _ => build;
     env_build_seconds := "12.34";
     env_path_exists := fun _ => true;
     env_os_remove := fun _ => Ret tt;
     env_images_remove := fun _ => Ret tt;
     env_images_get := fun _ => Raise (ImageNotFound "No such image") |}.

(** The model has no answer and the docker build fails. *)
Definition env : Env SubAgent Image Message Repo.Listing Task :=
  make_env None (Raise (DockerException "pull access denied")).

(** The model answers and the docker build succeeds. *)
Definition helpful_env : Env SubAgent Image Message Repo.Listing Task :=
  make_env (Some "3.11") (Ret ("sha256:0a1b", ["Step 1/2 : FROM python"])).

(** The model has no answer and the docker build succeeds. *)
Definition building_env : Env SubAgent Image Message Repo.Listing Task :=
  make_env None (Ret ("sha256:0a1b", ["Step 1/2 : FROM python"])).

Definition idle : ChatAgent Message Task :=
  {| current_response := None;
     pending_message := Some "Which base image fits this repo?";
     task := "" |}.

(** The agent before [ask_url] has run. *)
Definition fresh : World :=
  {| self := DockerChatAgent_new SubAgent Repo.Listing idle; events := [] |}.

Definition listing : Repo.Listing :=
  {| Repo.listing_dirs := ["src"; "tests"];
     Repo.listing_files := ["README.md"; "setup.py"] |}.

(** The agent once the repository has been cloned and listed. *)
Definition cloned : World :=
  {| self :=
       {| base := idle;
          url := DEFAULT_URL;
          repo_tree := Some listing;
          repo_path := Some "/tmp/testing-ml";
          code_chat_agent := Some 0 |};
     events := [] |}.

(** The same agent with a listing that has no [README.md]. *)
Definition bare : World :=
  {| self :=
       {| base := idle;
          url := DEFAULT_URL;
          repo_tree := Some {| Repo.listing_dirs := ["src"];
                               Repo.listing_files := ["setup.py"] |};
          repo_path := Some "/tmp/testing-ml";
          code_chat_agent := Some 0 |};
     events := [] |}.

Definition readme : FileExistsMessage :=
  {| filename := "README.md"; file_exists_result := "yes" |}.

Definition which_python : PythonVersionMessage :=
  {| python_version_result := "3.9" |}.

Definition which_dependencies : PythonDependencyMessage :=
  {| python_dependency_result := "yes" |}.

Definition which_entrypoint : EntryPointAndCMDMessage :=
  {| find_entrypoint_result := "I could not find the entry point." |}.

(** A name where the contents were expected. *)
Definition name_only : ValidateDockerfileMessage :=
  {| proposed_dockerfile := Str "Dockerfile";
     validate_dockerfile_result := "build succeed" |}.

Definition two_lines : ValidateDockerfileMessage :=
  {| proposed_dockerfile := Lines ["FROM a"; "CMD b"];
     validate_dockerfile_result := "build succeed" |}.

Definition full_dockerfile : ValidateDockerfileMessage :=
  {| proposed_dockerfile :=
       Lines ["FROM python:3.7-slim"; "WORKDIR /app"];
     validate_dockerfile_result := "build succeed" |}.

End Sample.

Module MoreSamples.

Import Messages DockerChat AskUrl.

(** Both names set, no credentials, and only an asynchronous client
    supplied. *)
Definition only_async_config : Azure.AzureConfig unit unit :=
  {| Azure.api_key := "";
     Azure.type := "azure";
     Azure.api_version := "2023-05-15";
     Azure.deployment_name := "prod";
     Azure.model_name := "gpt-4o";
     Azure.model_version := "";
     Azure.api_base := "";
     Azure.azure_openai_client_provider := None;
     Azure.azure_openai_async_client_provider := Some (fun _ => tt);
     Azure.chat_model := "gpt-4";
     Azure.timeout := 20%Z |}.

(** A client supplied, but no model name. *)
Definition no_model_config : Azure.AzureConfig unit unit :=
  {| Azure.api_key := "";
     Azure.type := "azure";
     Azure.api_version := "2023-05-15";
     Azure.deployment_name := "prod";
     Azure.model_name := "";
     Azure.model_version := "";
     Azure.api_base := "";
     Azure.azure_openai_client_provider := Some (fun _ => tt);
     Azure.azure_openai_async_client_provider := None;
     Azure.chat_model := "gpt-4";
     Azure.timeout := 20%Z |}.

(** [AzureSample.sample_config] on the oldest API version that supports
    JSON schemas. *)
Definition minimal_version_config : Azure.AzureConfig unit unit :=
  {| Azure.api_key := "key";
     Azure.type := "azure";
     Azure.api_version := "2024-08-01-preview";
     Azure.deployment_name := "prod";
     Azure.model_name := "gpt-4o";
     Azure.model_version := "2024-11-20";
     Azure.api_base := "https://example.openai.azure.com";
     Azure.azure_openai_client_provider := None;
     Azure.azure_openai_async_client_provider := None;
     Azure.chat_model := "";
     Azure.timeout := 20%Z |}.

Definition azure_init (c : Azure.AzureConfig unit unit)
    : Outcome (Azure.AzureGPT unit unit unit) :=
  Azure.AzureGPT_init (fun _ => tt) (fun _ _ _ _ => tt)
    (fun _ _ _ _ _ => tt) (fun a _ => a) c.

(** Collaborators of the agent for a given outcome of the write and of
    the removal of the image and a given result of [do_task]; the model
    has no answer and the docker build succeeds. *)
Definition make_env_answering (answer : string)
    (write removal : Outcome unit) (result : option Sample.Message)
    : Env Sample.SubAgent Sample.Image Sample.Message Repo.Listing
        Sample.Task :=
  {| env_ask_agent := fun agent _ _ _ => (None, option_map S agent);
     env_do_task := fun sub _ _ => (result, S sub);
     env_super_process_pending_message := fun w => (Ret tt, w);
     env_setup_task :=
       fun msg b =>
         {| current_response := current_response b;
            pending_message := pending_message b;
            task := msg |};
     env_get_python_version := fun _ => None;
     env_identify_dependency_management := fun _ => Some "requirements.txt";
     env_select := fun _ _ => [("type", ["dir"])];
     env_prompt_ask := fun _ _ _ => answer;
     env_open_write := fun _ _ => write;
     env_images_build :=
       fun _ _ _ => Ret ("sha256:0a1b", ["Step 1/2 : FROM python"]);
     env_build_seconds := "12.34";
     env_path_exists := fun _ => false;
     env_os_remove := fun _ => Ret tt;
     env_images_remove := fun _ => removal;
     env_images_get := fun _ => Ret tt |}.

(** The same collaborators with a user who declines. *)
Definition make_env (write removal : Outcome unit)
    (result : option Sample.Message)
    : Env Sample.SubAgent Sample.Image Sample.Message Repo.Listing
        Sample.Task :=
  make_env_answering "n" write removal result.

(** The disk is full. *)
Definition full_disk_env :=
  make_env (Raise (OtherError "[Errno 28] No space left on device"))
    (Ret tt) None.

(** The disk is full, and the user confirms with a capital letter. *)
Definition full_disk_confirming_env :=
  make_env_answering "Y"
    (Raise (OtherError "[Errno 28] No space left on device")) (Ret tt) None.

(** The built image is in use and cannot be removed, and the user
    confirms. *)
Definition busy_image_confirming_env :=
  make_env_answering "y" (Ret tt)
    (Raise (DockerException "conflict: image is being used")) None.

(** The built image is in use and cannot be removed. *)
Definition busy_image_env :=
  make_env (Ret tt)
    (Raise (DockerException "conflict: image is being used"))
    None.

(** The agent with a response of its own, before [ask_url]. *)
Definition answered : Sample.World :=
  {| self :=
       DockerChatAgent_new Sample.SubAgent Repo.Listing
         {| current_response := Some "FROM python:3.11";
            pending_message := Some "Which base image fits this repo?";
            task := "" |};
     events := [] |}.

(** The agent with a code-chat agent, but no pending message. *)
Definition nothing_pending : Sample.World :=
  {| self :=
       {| base := {| current_response := None;
                     pending_message := None;
                     task := "" |};
          url := DEFAULT_URL;
          repo_tree := Some Sample.listing;
          repo_path := Some "/tmp/testing-ml";
          code_chat_agent := Some 0 |};
     events := [] |}.


(** Collaborators of [ask_url]: what the user types at every prompt, and
    whether cloning works.  A URL is accepted when it begins with
    ["https://"]. *)
Definition url_env (typed : string) (clones : bool)
    : UrlEnv Sample.SubAgent Repo.Listing string :=
  {| url_typed := fun _ _ => typed;
     url_validate :=
       fun url =>
         if PyStr.startswith "https://" url
         then Ret {| um_url := Some url |}
         else Raise (ValueError "invalid or missing URL scheme");
     url_config_llm := "gpt-4";
     url_new_CodeChatAgent := fun _ => 0;
     url_clone := fun _ => if clones then Some "/tmp/testing-ml" else None;
     url_load := fun _ _ _ => Sample.listing;
     url_ls :=
       fun t _ => (Repo.listing_dirs t ++ Repo.listing_files t)%list |}.

Definition ask_url_message : AskURLMessage := {| ask_url_result := "" |}.

End MoreSamples.

(** The text that [_save_dockerfile] returns for an exception. *)
Module Texts.

Definition SAVE_ERROR (e : exn) : string :=
  "An error occurred while saving the Dockerfile: " ++ exn_str e.

End Texts.

(* ================================================================== *)
(** * Facts about the string operations *)
(* ================================================================== *)

Module PyStrFacts.

Import PyStr.

Lemma startswith_app (p t : string) : startswith p (p ++ t) = true.
Proof.
  induction p as [|a p IH]; simpl.
  - reflexivity.
  - now rewrite Ascii.eqb_refl, IH.
Qed.

Lemma startswith_inv (p s : string) :
  startswith p s = true -> exists t, s = p ++ t.
Proof.
  revert s. induction p as [|a p IH]; intros s H.
  - now exists s.
  - destruct s as [|b s]; simpl in H; [discriminate|].
    apply andb_true_iff in H. destruct H as [Hab Hps].
    apply Ascii.eqb_eq in Hab. subst b.
    destruct (IH _ Hps) as [t ->]. now exists t.
Qed.

Lemma contains_intro (needle pre post : string) :
  contains needle (pre ++ needle ++ post) = true.
Proof.
  induction pre as [|c pre IH].
  - simpl. destruct (needle ++ post) eqn:E;
      simpl; rewrite <- ?E; now rewrite startswith_app.
  - change (contains needle (String c (pre ++ needle ++ post)) = true).
    simpl. rewrite IH. apply orb_true_r.
Qed.

Lemma contains_inv (needle hay : string) :
  contains needle hay = true -> occurs_in needle hay.
Proof.
  induction hay as [|c hay IH]; simpl; intros H.
  - rewrite orb_false_r in H. apply startswith_inv in H.
    destruct H as [t Ht]. now exists EmptyString, t.
  - apply orb_true_iff in H. destruct H as [H|H].
    + apply startswith_inv in H. destruct H as [t Ht].
      now exists EmptyString, t.
    + destruct (IH H) as (pre & post & ->).
      now exists (String c pre), post.
Qed.

(** [in] on strings decides the occurrence of a substring. *)
Lemma contains_spec (needle hay : string) :
  contains needle hay = true <-> occurs_in needle hay.
Proof.
  split.
  - apply contains_inv.
  - intros (pre & post & ->). apply contains_intro.
Qed.

Lemma mem_spec (x : string) (l : list string) : mem x l = true <-> In x l.
Proof.
  unfold mem. rewrite existsb_exists. split.
  - intros (y & Hy & E). apply String.eqb_eq in E. now subst.
  - intros H. exists x. split; [assumption | apply String.eqb_refl].
Qed.

Lemma ascii_compare_lt (c d : ascii) :
  Ascii.compare c d = Lt <-> nat_of_ascii c < nat_of_ascii d.
Proof.
  unfold Ascii.compare, nat_of_ascii.
  rewrite N.compare_lt_iff. split; intros H; lia.
Qed.

Lemma ascii_compare_gt (c d : ascii) :
  Ascii.compare c d = Gt <-> nat_of_ascii d < nat_of_ascii c.
Proof.
  unfold Ascii.compare, nat_of_ascii.
  rewrite N.compare_gt_iff. split; intros H; lia.
Qed.

Lemma ascii_compare_eq (c d : ascii) : Ascii.compare c d = Eq <-> c = d.
Proof.
  unfold Ascii.compare. rewrite N.compare_eq_iff. split.
  - intros H. rewrite <- (ascii_N_embedding c), <- (ascii_N_embedding d).
    now rewrite H.
  - now intros ->.
Qed.

Lemma compare_gt_lex (a b : string) :
  String.compare a b = Gt <-> lex_lt b a.
Proof.
  revert b. induction a as [|c a IH]; intros [|d b]; simpl.
  - split; [discriminate | inversion 1].
  - split; [discriminate | inversion 1].
  - split; [constructor | reflexivity].
  - destruct (Ascii.compare c d) eqn:E.
    + apply ascii_compare_eq in E. subst d. rewrite IH. split.
      * now constructor.
      * inversion 1; subst; [lia | assumption].
    + apply ascii_compare_lt in E. split; [discriminate|].
      inversion 1; subst; lia.
    + apply ascii_compare_gt in E. split; [|reflexivity].
      intros _. now constructor.
Qed.

Lemma compare_eq_same (a b : string) : String.compare a b = Eq <-> a = b.
Proof.
  revert b. induction a as [|c a IH]; intros [|d b]; simpl;
    try (split; [discriminate | discriminate]); [tauto|].
  destruct (Ascii.compare c d) eqn:E.
  - apply ascii_compare_eq in E. subst d. rewrite IH. split.
    + now intros ->.
    + now inversion 1.
  - split; [discriminate|]. inversion 1; subst.
    assert (Ascii.compare d d = Eq) by now apply ascii_compare_eq.
    congruence.
  - split; [discriminate|]. inversion 1; subst.
    assert (Ascii.compare d d = Eq) by now apply ascii_compare_eq.
    congruence.
Qed.

(** [>=] on strings decides the lexicographic order. *)
Lemma ge_spec (a b : string) : ge a b = true <-> lex_ge a b.
Proof.
  unfold ge, lex_ge. rewrite <- compare_gt_lex, <- compare_eq_same.
  destruct (String.compare a b); split; intros H;
    try discriminate; try reflexivity; try tauto.
  destruct H; discriminate.
Qed.

End PyStrFacts.

(* ================================================================== *)
(** * Properties of [AzureGPT.__init__] *)
(* ================================================================== *)

Module AzureFacts.

Import Azure.

Section Construction.

Context {SyncClient AsyncClient OpenAIGPT : Type}.
Variable OpenAIGPT_init : AzureConfig SyncClient AsyncClient -> OpenAIGPT.
Variable new_AzureOpenAI : string -> string -> string -> string -> SyncClient.
Variable new_AsyncAzureOpenAI :
  string -> string -> string -> string -> Z -> AsyncClient.
Variable with_timeout : AsyncClient -> Z -> AsyncClient.

Let Config := AzureConfig SyncClient AsyncClient.

Let init (c : Config) :=
  AzureGPT_init OpenAIGPT_init new_AzureOpenAI new_AsyncAzureOpenAI
    with_timeout c.

Lemma given_false {A : Type} (p : option A) : given p = false <-> p = None.
Proof. destruct p; simpl; split; intros H; congruence. Qed.

Lemma incompleteb_spec (c : Config) : incompleteb c = true <-> incomplete c.
Proof.
  unfold incompleteb, incomplete.
  rewrite !orb_true_iff, !andb_true_iff, !negb_true_iff, !orb_true_iff,
    !String.eqb_eq, !given_false.
  tauto.
Qed.

(** The constructor, case by case on [incompleteb]. *)
Lemma init_cases (c : Config) :
  if incompleteb c
  then exists msg, init c = Raise (ValueError msg)
  else exists g, init c = Ret g.
Proof.
  unfold incompleteb, init, AzureGPT_init.
  destruct (String.eqb (deployment_name c) ""); simpl; [eauto|].
  destruct (String.eqb (model_name c) ""); simpl; [eauto|].
  destruct (given (azure_openai_client_provider c)); simpl; [eauto|].
  destruct (given (azure_openai_async_client_provider c)); simpl; [eauto|].
  destruct (String.eqb (api_key c) ""); simpl; [eauto|].
  destruct (String.eqb (api_base c) ""); simpl; eauto.
Qed.

(** C9.  Construction raises [ValueError] exactly when the deployment
    name is empty, or the model name is empty, or no client provider of
    either kind is supplied and the API key or the API base is empty; in
    every other case, and only then, it completes with an object. *)
Theorem AzureGPT_init_raises_exactly_when_incomplete (c : Config) :
  ((exists msg, init c = Raise (ValueError msg)) <-> incomplete c)
  /\ ((exists g, init c = Ret g) <-> ~ incomplete c)
  /\ (forall e, init c = Raise e -> is_ValueError e = true).
Proof.
  rewrite <- incompleteb_spec.
  pose proof (init_cases c) as H.
  destruct (incompleteb c); destruct H as [x Hx]; rewrite Hx.
  - split; [|split].
    + split; [reflexivity | eauto].
    + split; [intros [g Hg]; discriminate | intros Hn; now exfalso].
    + intros e He. now inversion He.
  - split; [|split].
    + split; [intros [m Hm]; discriminate | discriminate].
    + split; [discriminate | eauto].
    + intros e He. discriminate.
Qed.



End Construction.


Example sample_gpt_supports_json_schema :
  supports_json_schema AzureSample.sample_gpt = true.
Proof. reflexivity. Qed.

Example default_config_is_refused :
  AzureGPT_init (fun _ => tt) (fun _ _ _ _ => tt) (fun _ _ _ _ _ => tt)
    (fun a _ => a) (@AzureConfig_default unit unit "gpt-4" 20%Z)
  = Raise (ValueError (MSG_DEPLOYMENT_NAME)).
Proof. reflexivity. Qed.

End AzureFacts.

(* ================================================================== *)
(** * Properties of the docker-chat agent *)
(* ================================================================== *)

Module DockerChatFacts.

Import Messages DockerChat.

(** Unfolds the plumbing of [M] so that a method body reads as a
    function of the world. *)
Ltac run :=
  unfold bind, ret, raise, lift, get_self, put_self, emit, try_except;
  simpl.

(** A world is determined by its agent and its events. *)
Lemma World_eta {SubAgent Message Tree Task : Type}
    (w : World SubAgent Message Tree Task) :
  {| self := self w; events := events w |} = w.
Proof. now destruct w. Qed.

(** ** The fallback *)

Section Fallback.

Context {SubAgent Message Tree Task : Type}.

Local Abbreviation World := (World SubAgent Message Tree Task).

Lemma handle_message_fallback_run (input_str : string) (w : World) :
  handle_message_fallback input_str w
  = (Ret (fallback_of (repo_path (self w)) input_str), w).
Proof.
  unfold handle_message_fallback, fallback_of. run.
  now destruct (is_None (repo_path (self w))
                && negb (PyStr.contains "URL" input_str)).
Qed.

Lemma fallback_of_some (path : option string) (input_str : string) :
  fallback_of path input_str = Some MSG_URL_NOT_SENT
  <-> path = None /\ ~ PyStr.occurs_in "URL" input_str.
Proof.
  unfold fallback_of. rewrite <- PyStrFacts.contains_spec.
  destruct path as [p|]; simpl.
  - split; [discriminate | intros [H _]; discriminate].
  - destruct (PyStr.contains "URL" input_str); simpl.
    + split; [discriminate | intros [_ H]; now elim H].
    + split; [intros _; split; [reflexivity | discriminate] | reflexivity].
Qed.

Lemma fallback_of_none (path : option string) (input_str : string) :
  fallback_of path input_str = None
  <-> ~ (path = None /\ ~ PyStr.occurs_in "URL" input_str).
Proof.
  rewrite <- fallback_of_some. unfold fallback_of.
  destruct (is_None path && negb (PyStr.contains "URL" input_str)).
  - split; [discriminate | intros H; now elim H].
  - split; [discriminate | reflexivity].
Qed.

Lemma MSG_URL_NOT_SENT_asks_for_URL :
  PyStr.occurs_in "ask me for the URL" MSG_URL_NOT_SENT
  /\ PyStr.occurs_in "send it to me for confirmation" MSG_URL_NOT_SENT.
Proof. split; apply PyStrFacts.contains_spec; reflexivity. Qed.

(** C1.  [handle_message_fallback(s)] is a function of [repo_path] and
    [s] alone, it leaves the agent and the record of its actions as they
    were, and it never raises.  It returns the clarifying message, which
    asks for the URL and for its confirmation, exactly when [repo_path] is
    [None] and ["URL"] does not occur in [s]; in every other case it
    returns [None]. *)
Theorem handle_message_fallback_exact :
  exists f : option string -> string -> option string,
    (forall (s : string) (w : World),
        handle_message_fallback s w = (Ret (f (repo_path (self w)) s), w))
    /\ (forall path s,
           f path s = Some MSG_URL_NOT_SENT
           <-> path = None /\ ~ PyStr.occurs_in "URL" s)
    /\ (forall path s,
           f path s = None
           <-> ~ (path = None /\ ~ PyStr.occurs_in "URL" s))
    /\ PyStr.occurs_in "ask me for the URL" MSG_URL_NOT_SENT
    /\ PyStr.occurs_in "send it to me for confirmation" MSG_URL_NOT_SENT.
Proof.
  exists fallback_of. split; [|split; [|split]].
  - apply handle_message_fallback_run.
  - apply fallback_of_some.
  - apply fallback_of_none.
  - apply MSG_URL_NOT_SENT_asks_for_URL.
Qed.

Lemma fallback_without_repo (w : World) :
  repo_path (self w) = None ->
  handle_message_fallback "" w = (Ret (Some MSG_URL_NOT_SENT), w).
Proof.
  intros H. rewrite handle_message_fallback_run, H. reflexivity.
Qed.

End Fallback.

(** ** The guard of the handlers *)

Section Guard.

Context {SubAgent Image Message Tree Task : Type}.
Variable image_id : Image -> string.
Variable env : Env SubAgent Image Message Tree Task.

Local Abbreviation World := (World SubAgent Message Tree Task).

(** C2.  With [repo_path] being [None], each of [python_version],
    [file_exists], [python_dependency], [validate_dockerfile] and
    [find_entrypoint] returns what [handle_message_fallback] returns on
    the empty input, namely the clarifying message, and leaves the world
    as it was: no event is recorded, so no collaborator was called. *)
Theorem handlers_fall_back_without_repo
    (w : World)
    (mv : PythonVersionMessage) (mf : FileExistsMessage)
    (md : PythonDependencyMessage) (mx : ValidateDockerfileMessage)
    (confirm : bool) (me : EntryPointAndCMDMessage) :
  repo_path (self w) = None ->
  handle_message_fallback "" w = (Ret (Some MSG_URL_NOT_SENT), w)
  /\ python_version env mv w = handle_message_fallback "" w
  /\ file_exists env mf w = handle_message_fallback "" w
  /\ python_dependency env md w = handle_message_fallback "" w
  /\ validate_dockerfile image_id env mx confirm w
     = handle_message_fallback "" w
  /\ find_entrypoint env me w = handle_message_fallback "" w.
Proof.
  intros H. split; [now apply fallback_without_repo|].
  repeat split;
    [ unfold python_version | unfold file_exists | unfold python_dependency
    | unfold validate_dockerfile | unfold find_entrypoint ];
    unfold bind, get_self; simpl; rewrite H; reflexivity.
Qed.

End Guard.

(** ** The handlers once the repository is known *)

Section Handlers.

Context {SubAgent Image Message Tree Task : Type}.
Variable image_id : Image -> string.
Variable env : Env SubAgent Image Message Tree Task.

Local Abbreviation World := (World SubAgent Message Tree Task).

Lemma ask_agent_run (w : World) (request : string) :
  ask_agent env (code_chat_agent (self w)) request NO_ANSWER false w
  = (Ret (model_answer env w request), asked env w request).
Proof.
  unfold ask_agent, model_answer, asked. run.
  now destruct (env_ask_agent env (code_chat_agent (self w)) request
                  NO_ANSWER false).
Qed.

Lemma asked_repo (w : World) (request : string) :
  repo_path (self (asked env w request)) = repo_path (self w)
  /\ repo_tree (self (asked env w request)) = repo_tree (self w)
  /\ base (self (asked env w request)) = base (self w).
Proof. repeat split. Qed.

(** The model's answer, when there is one, is what a two-stage handler
    returns, and nothing else is consulted. *)
Lemma python_version_model (w : World) (m : PythonVersionMessage)
    (path answer : string) :
  repo_path (self w) = Some path ->
  model_answer env w REQ_PYTHON_VERSION = Some answer ->
  python_version env m w = (Ret (Some answer), asked env w REQ_PYTHON_VERSION).
Proof.
  intros Hp Ha. unfold python_version.
  unfold bind at 1. unfold get_self. rewrite Hp.
  unfold bind at 1. rewrite ask_agent_run, Ha. reflexivity.
Qed.

Lemma python_version_local (w : World) (m : PythonVersionMessage)
    (path : string) :
  repo_path (self w) = Some path ->
  model_answer env w REQ_PYTHON_VERSION = None ->
  let w1 := asked env w REQ_PYTHON_VERSION in
  let found := env_get_python_version env path in
  python_version env m w
  = if PyStr.truthy found
    then (Ret found,
          {| self := self w1;
             events := (events w1 ++ [GetPythonVersion path])%list |})
    else (Ret (Some "Couldn't identify the python version"),
          {| self := self w1;
             events :=
               ((events w1 ++ [GetPythonVersion path])
                ++ [Log "error" "Could not determine Python version."])%list
          |}).
Proof.
  intros Hp Ha. unfold python_version.
  unfold bind at 1. unfold get_self. rewrite Hp.
  unfold bind at 1. rewrite ask_agent_run, Ha.
  unfold get_python_version, logger_error. run.
  now destruct (PyStr.truthy (env_get_python_version env path)).
Qed.

(** C4, as amended.  When [repo_path] is established, [python_version]
    resolves in two stages tried in order.  It first asks the code-chat
    agent and returns its answer whenever that answer is not [None],
    consulting nothing else.  Only when the answer is [None] does it call
    [get_python_version(repo_path)], whose result it returns when that
    result is a non-empty string; when the local analysis yields nothing
    either, it returns ["Couldn't identify the python version"]. *)
Theorem python_version_two_stages (w : World) (m : PythonVersionMessage)
    (path : string) :
  repo_path (self w) = Some path ->
  let ask := AskAgent REQ_PYTHON_VERSION NO_ANSWER false in
  let found := env_get_python_version env path in
  let result := fst (python_version env m w) in
  let trace := events (snd (python_version env m w)) in
  (forall answer,
      model_answer env w REQ_PYTHON_VERSION = Some answer ->
      result = Ret (Some answer) /\ trace = (events w ++ [ask])%list)
  /\ (model_answer env w REQ_PYTHON_VERSION = None ->
      PyStr.truthy found = true ->
      result = Ret found
      /\ trace = (events w ++ [ask; GetPythonVersion path])%list)
  /\ (model_answer env w REQ_PYTHON_VERSION = None ->
      PyStr.truthy found = false ->
      result = Ret (Some "Couldn't identify the python version")
      /\ trace
         = (events w
            ++ [ask; GetPythonVersion path;
                Log "error" "Could not determine Python version."])%list).
Proof.
  intros Hp. cbv zeta. split; [|split].
  - intros answer Ha. rewrite (python_version_model w m Hp Ha).
    split; reflexivity.
  - intros Ha Ht. rewrite (python_version_local w m Hp Ha). cbv zeta.
    rewrite Ht. simpl. split; [reflexivity|].
    now rewrite <- app_assoc.
  - intros Ha Ht. rewrite (python_version_local w m Hp Ha). cbv zeta.
    rewrite Ht. simpl. split; [reflexivity|].
    now rewrite <- !app_assoc.
Qed.

Lemma file_exists_local (w : World) (message : FileExistsMessage)
    (path : string) :
  repo_path (self w) = Some path ->
  model_answer env w (REQ_FILE_EXISTS (filename message)) = None ->
  fst (file_exists env message w)
  = match lookup_files (env_select env (repo_tree (self w))
                          [filename message]) with
    | Ret true => Ret (Some (MSG_YES_FILE (filename message)))
    | Ret false => Ret (Some (MSG_NO_FILE (filename message)))
    | Raise e => Raise e
    end.
Proof.
  intros Hp Ha. unfold file_exists.
  unfold bind at 1. unfold get_self. rewrite Hp.
  unfold bind at 1. rewrite ask_agent_run, Ha.
  unfold RepoLoader_select, lookup_files. run.
  destruct (Nat.ltb 0 (List.length
                         (env_select env (repo_tree (self w))
                            [filename message]))); simpl.
  - destruct (dict_get "files" _) as [files|e]; simpl; [|reflexivity].
    now destruct (Nat.ltb 0 (List.length files)).
  - reflexivity.
Qed.

End Handlers.

(** ** [file_exists] against a repository listing *)

Section Listing.

Context {SubAgent Image Message Task : Type}.
Variable env : Env SubAgent Image Message Repo.Listing Task.

Local Abbreviation World := (World SubAgent Message Repo.Listing Task).

Lemma selected_nonempty (name : string) (names : list string) :
  Nat.ltb 0 (List.length (filter (fun f => PyStr.mem f [name]) names)) = true
  <-> In name names.
Proof.
  induction names as [|x names IH]; simpl.
  - split; [discriminate | contradiction].
  - rewrite orb_false_r. destruct (String.eqb x name) eqn:E; simpl.
    + apply String.eqb_eq in E. subst x. split; [now left | reflexivity].
    + apply String.eqb_neq in E. rewrite IH. split; [now right|].
      intros [H|H]; [contradiction | assumption].
Qed.

Lemma lookup_files_select (t : Repo.Listing) (name : string) :
  lookup_files (Repo.select (Some t) [name])
  = Ret (Nat.ltb 0 (List.length
                      (filter (fun f => PyStr.mem f [name])
                         (Repo.listing_files t)))).
Proof. reflexivity. Qed.

(** [file_exists] for any file name, the listing deciding. *)
Lemma file_exists_by_listing (w : World) (message : FileExistsMessage)
    (path : string) (t : Repo.Listing) :
  env_select env = Repo.select ->
  repo_path (self w) = Some path ->
  repo_tree (self w) = Some t ->
  model_answer env w (REQ_FILE_EXISTS (filename message)) = None ->
  (In (filename message) (Repo.listing_files t) ->
   fst (file_exists env message w)
   = Ret (Some (MSG_YES_FILE (filename message))))
  /\ (~ In (filename message) (Repo.listing_files t) ->
      fst (file_exists env message w)
      = Ret (Some (MSG_NO_FILE (filename message)))).
Proof.
  intros Hs Hp Ht Ha.
  rewrite (file_exists_local env w message Hp Ha), Hs, Ht,
    lookup_files_select.
  pose proof (selected_nonempty (filename message) (Repo.listing_files t))
    as Hsel.
  destruct (Nat.ltb 0 _); split; intros H.
  - reflexivity.
  - elim H. now apply Hsel.
  - apply Hsel in H. discriminate.
  - reflexivity.
Qed.

(** C3, as amended.  When [repo_path] is established, the code-chat agent
    returns no answer and the listing of the repository tree contains a
    file named [README.md], [file_exists] applied to
    [FileExistsMessage(filename="README.md")] returns the string made of a
    newline, twelve spaces and the sentence
    ["Yes, there is a file named README.md in the repo."]; when no such
    file is in the listing it returns the string made of a newline,
    twelve spaces and
    ["No, there is no file named README.md in the repo."]. *)
Theorem file_exists_README (w : World) (message : FileExistsMessage)
    (path : string) (t : Repo.Listing) :
  env_select env = Repo.select ->
  repo_path (self w) = Some path ->
  repo_tree (self w) = Some t ->
  filename message = "README.md" ->
  model_answer env w (REQ_FILE_EXISTS "README.md") = None ->
  (In "README.md" (Repo.listing_files t) ->
   fst (file_exists env message w)
   = Ret (Some (PyStr.nl ++ "            "
                ++ "Yes, there is a file named README.md in the repo.")))
  /\ (~ In "README.md" (Repo.listing_files t) ->
      fst (file_exists env message w)
      = Ret (Some (PyStr.nl ++ "            "
                   ++ "No, there is no file named README.md in the repo."))).
Proof.
  intros Hs Hp Ht Hf Ha. rewrite <- Hf in Ha.
  destruct (file_exists_by_listing w message Hs Hp Ht Ha) as [Hyes Hno].
  rewrite Hf in Hyes, Hno. split; assumption.
Qed.

End Listing.

(** ** Validating a proposed Dockerfile *)

Section Validation.

Context {SubAgent Image Message Tree Task : Type}.
Variable image_id : Image -> string.
Variable env : Env SubAgent Image Message Tree Task.

Local Abbreviation World := (World SubAgent Message Tree Task).

Lemma record_nil (w : World) : record w [] = w.
Proof. unfold record. rewrite app_nil_r. now destruct w. Qed.

Lemma record_record (w : World) (es fs : list Event) :
  record (record w es) fs = record w (es ++ fs).
Proof. unfold record. simpl. now rewrite app_assoc. Qed.

(** C5, as amended.  When [repo_path] is established, for every
    [ValidateDockerfileMessage] whose [proposed_dockerfile] (a list of
    strings being joined with newlines into one string) is shorter than 20
    characters, [validate_dockerfile] returns the corrective message,
    which says that the parameter should contain the contents of the
    dockerfile and not its name; it raises nothing and leaves the world as
    it was, so nothing was prompted, saved, built or cleaned up. *)
Theorem validate_dockerfile_short_content
    (w : World) (dockerfile_msg : ValidateDockerfileMessage)
    (confirm : bool) (path : string) :
  repo_path (self w) = Some path ->
  String.length
    (match proposed_dockerfile dockerfile_msg with
     | Str s => s
     | Lines l => String.concat PyStr.nl l
     end) < 20 ->
  validate_dockerfile image_id env dockerfile_msg confirm w
  = (Ret (Some MSG_INVALID_PARAMETER), w)
  /\ PyStr.occurs_in
       "should contain the CONTENTS of the " MSG_INVALID_PARAMETER
  /\ PyStr.occurs_in
       "proposed dockerfile, NOT the NAME of the Dockerfile"
       MSG_INVALID_PARAMETER.
Proof.
  intros Hp Hlen. split.
  - unfold validate_dockerfile. unfold bind at 1. unfold get_self.
    rewrite Hp. simpl is_None. cbv iota zeta.
    unfold proposed_text, PyStr.join.
    apply Nat.ltb_lt in Hlen. rewrite Hlen. reflexivity.
  - split; apply PyStrFacts.contains_spec; reflexivity.
Qed.

(** [_build_docker_image], by the outcome of the docker build. *)
Lemma build_docker_image_run (w : World) (name tag : string) :
  _build_docker_image env name tag w
  = (match env_images_build env (repo_path (self w)) tag name with
     | Ret (image, _) =>
         Ret (Some image, "Image build successful!",
              Some (env_build_seconds env))
     | Raise e =>
         if is_DockerException e
         then Ret (None, "Image build failed: " ++ exn_str e, None)
         else Raise e
     end,
     record w [ImagesBuild (repo_path (self w)) tag name]).
Proof.
  unfold _build_docker_image, images_build, record. run.
  destruct (env_images_build env (repo_path (self w)) tag name)
    as [[image logs]|e]; simpl; [reflexivity|].
  now destruct (is_DockerException e).
Qed.

(** [_save_dockerfile] when the file could be written. *)
Lemma save_dockerfile_run (w : World) (text name path : string) :
  repo_path (self w) = Some path ->
  env_open_write env (os_path_join path name) text = Ret tt ->
  _save_dockerfile env text name w
  = (Ret (os_path_join path name),
     record w [OpenWrite (os_path_join path name) text]).
Proof.
  intros Hp Hw. unfold _save_dockerfile, open_write, record. run.
  rewrite Hp. simpl. rewrite Hw. reflexivity.
Qed.

(** [validate_dockerfile] up to the build: the content is long enough,
    the user does not decline, and the file is written. *)
Lemma validate_dockerfile_reaches_build
    (w : World) (dockerfile_msg : ValidateDockerfileMessage)
    (confirm : bool) (path : string) :
  repo_path (self w) = Some path ->
  20 <= String.length (proposed_text dockerfile_msg) ->
  confirmed env confirm ->
  let full_path := os_path_join path "Dockerfile_proposed" in
  env_open_write env full_path (proposed_text dockerfile_msg) = Ret tt ->
  PyStr.startswith "An error" full_path = false ->
  validate_dockerfile image_id env dockerfile_msg confirm w
  = bind (_build_docker_image env "Dockerfile_proposed" "validate_img")
      (fun built =>
         let '(img, build_log, build_time) := built in
         match img with
         | Some i =>
             bind (_cleanup_dockerfile env (image_id i) full_path)
               (fun _ =>
                  ret (Some
                         ("Docker image built successfully and build time took:"
                          ++ fmt build_time ++ " Seconds...")))
         | None =>
             ret (Some ("Docker build failed with error message: "
                        ++ build_log))
         end)
      (record w
         (prompted confirm
          ++ [OpenWrite full_path (proposed_text dockerfile_msg)])).
Proof.
  intros Hp Hlen Hc full_path Hw Hs.
  unfold validate_dockerfile. unfold bind at 1. unfold get_self.
  rewrite Hp. simpl is_None. cbv iota zeta.
  apply Nat.ltb_ge in Hlen. rewrite Hlen.
  assert (Hsave : forall w0 : World,
             repo_path (self w0) = Some path ->
             _save_dockerfile env (proposed_text dockerfile_msg)
               "Dockerfile_proposed" w0
             = (Ret full_path,
                record w0
                  [OpenWrite full_path (proposed_text dockerfile_msg)])).
  { intros w0 H0. now apply save_dockerfile_run. }
  destruct confirm.
  - unfold bind at 1. unfold bind at 1. unfold Prompt_ask at 1.
    unfold bind at 1. unfold emit at 1. unfold ret at 1.
    unfold ret at 1. rewrite (Hc eq_refl).
    cbn [is_None negb String.eqb Ascii.eqb Bool.eqb]. cbv beta iota.
    unfold bind at 1. rewrite Hsave by exact Hp. rewrite Hs.
    unfold record, prompted. cbn [self events app].
    rewrite <- app_assoc. reflexivity.
  - unfold bind at 1. unfold ret at 1.
    cbn [is_None]. cbv beta iota.
    unfold bind at 1. rewrite Hsave by exact Hp. rewrite Hs.
    reflexivity.
Qed.

(** C6, as amended.  [_build_docker_image] returns a triple whenever the
    docker build returns or raises an error of the [DockerException]
    family: on a successful build, the image, the text
    ["Image build successful!"] and the formatted build time; on any such
    error of the docker build, [None], a text that begins with
    ["Image build failed:"] and carries the error, and [None], and the
    error is not raised into the caller.  The exceptions that leave
    [_build_docker_image] are exactly those of the build outside that
    family.  When the build to which [validate_dockerfile] comes fails
    with a docker error, the content that [validate_dockerfile] returns
    carries the failure text, and no cleanup follows the build; an
    exception of the build outside the family leaves
    [validate_dockerfile] as well.  The formatted build time is the text
    [env_build_seconds], which stands for what ["{:.2f}".format] prints
    for the elapsed seconds; floating-point arithmetic is outside this
    development. *)
Theorem build_docker_image_triple_within_docker_errors
    (w : World) (name tag : string) :
  let outcome := env_images_build env (repo_path (self w)) tag name in
  let result := fst (_build_docker_image env name tag w) in
  ((forall e, outcome = Raise e -> is_DockerException e = true) ->
   exists image log duration, result = Ret (image, log, duration))
  /\ (forall image logs,
         outcome = Ret (image, logs) ->
         result = Ret (Some image, "Image build successful!",
                       Some (env_build_seconds env)))
  /\ (forall e,
         outcome = Raise e -> is_DockerException e = true ->
         result = Ret (None, "Image build failed: " ++ exn_str e, None)
         /\ PyStr.startswith "Image build failed:"
              ("Image build failed: " ++ exn_str e) = true)
  /\ (forall e,
         result = Raise e
         <-> outcome = Raise e /\ is_DockerException e = false)
  /\ (forall (dockerfile_msg : ValidateDockerfileMessage) (confirm : bool)
             (path : string) (e : exn),
         repo_path (self w) = Some path ->
         20 <= String.length (proposed_text dockerfile_msg) ->
         confirmed env confirm ->
         env_open_write env (os_path_join path "Dockerfile_proposed")
           (proposed_text dockerfile_msg) = Ret tt ->
         PyStr.startswith "An error"
           (os_path_join path "Dockerfile_proposed") = false ->
         env_images_build env (Some path) "validate_img"
           "Dockerfile_proposed" = Raise e ->
         (is_DockerException e = true ->
          validate_dockerfile image_id env dockerfile_msg confirm w
          = (Ret (Some ("Docker build failed with error message: "
                        ++ "Image build failed: " ++ exn_str e)),
             record w
               (prompted confirm
                ++ [OpenWrite (os_path_join path "Dockerfile_proposed")
                      (proposed_text dockerfile_msg);
                    ImagesBuild (Some path) "validate_img"
                      "Dockerfile_proposed"])))
         /\ (is_DockerException e = false ->
             fst (validate_dockerfile image_id env dockerfile_msg confirm w)
             = Raise e)).
Proof.
  cbv zeta. rewrite build_docker_image_run. simpl fst.
  split; [|split; [|split; [|split]]].
  - intros Hfam.
    destruct (env_images_build env (repo_path (self w)) tag name)
      as [[image logs]|e0].
    + now eexists _, _, _.
    + rewrite (Hfam e0 eq_refl). now eexists _, _, _.
  - intros image logs ->. reflexivity.
  - intros e -> ->. split; reflexivity.
  - intros e.
    destruct (env_images_build env (repo_path (self w)) tag name)
      as [[image logs]|e0].
    + split; [discriminate | intros [H _]; discriminate].
    + destruct (is_DockerException e0) eqn:E.
      * split; [discriminate|]. intros [H He]. inversion H; subst.
        congruence.
      * split.
        -- intros H. inversion H; subst. now split.
        -- intros [H _]. now inversion H.
  - intros dockerfile_msg confirm path e Hp Hlen Hc Hw Hs Hb.
    rewrite (validate_dockerfile_reaches_build w dockerfile_msg
               Hp Hlen Hc Hw Hs).
    unfold bind. rewrite build_docker_image_run.
    change (repo_path (self (record w _))) with (repo_path (self w)).
    rewrite Hp, Hb. split; intros He; rewrite He.
    + unfold ret. rewrite record_record.
      rewrite <- app_assoc. reflexivity.
    + reflexivity.
Qed.

End Validation.

(** ** Delegation to the code-chat agent *)

Section Delegation.

Context {SubAgent Image Message Tree Task : Type}.
Variable content : Message -> string.
Variable env : Env SubAgent Image Message Tree Task.

Local Abbreviation World := (World SubAgent Message Tree Task).

(** C7.  In [process_pending_message], when the handling by the base
    class leaves [current_response] at [None] and [do_task] of the
    code-chat agent returns a result that is not [None], the delegating
    agent sets its [current_response] and its [pending_message] to that
    result and sets its task up again from the content of the result.
    The fields of the base class are the only ones it writes: [url],
    [repo_tree] and [repo_path] stay as the base class left them, and the
    state of the code-chat agent is the one in which its own [do_task]
    left it.  The one event added is the call to [do_task]. *)
Theorem process_pending_message_delegation
    (w0 w1 : World) (sub sub' : SubAgent) (pending result : Message) :
  env_super_process_pending_message env w0 = (Ret tt, w1) ->
  current_response (base (self w1)) = None ->
  code_chat_agent (self w1) = Some sub ->
  pending_message (base (self w1)) = Some pending ->
  env_do_task env sub (content pending) false = (Some result, sub') ->
  process_pending_message content env w0
  = (Ret tt,
     {| self :=
          {| base :=
               env_setup_task env (content result)
                 {| current_response := Some result;
                    pending_message := Some result;
                    task := task (base (self w1)) |};
             url := url (self w1);
             repo_tree := repo_tree (self w1);
             repo_path := repo_path (self w1);
             code_chat_agent := Some sub' |};
        events := (events w1 ++ [DoTask (content pending) false])%list |}).
Proof.
  intros Hsuper Hnone Hsub Hpending Htask.
  unfold process_pending_message. unfold bind at 1. rewrite Hsuper.
  unfold bind at 1. unfold get_self at 1. rewrite Hnone, Hsub, Hpending.
  unfold bind at 1. unfold emit at 1. rewrite Htask.
  reflexivity.
Qed.

(** When the base class has produced a response, nothing is delegated. *)
Lemma process_pending_message_answered (w0 w1 : World) (r : Message) :
  env_super_process_pending_message env w0 = (Ret tt, w1) ->
  current_response (base (self w1)) = Some r ->
  process_pending_message content env w0 = (Ret tt, w1).
Proof.
  intros Hsuper Hsome.
  unfold process_pending_message. unfold bind at 1. rewrite Hsuper.
  unfold bind at 1. unfold get_self at 1. rewrite Hsome. reflexivity.
Qed.

(** When the code-chat agent has nothing either, only its own state and
    [current_response] are written, and [pending_message] stays. *)
Lemma process_pending_message_no_result
    (w0 w1 : World) (sub sub' : SubAgent) (pending : Message) :
  env_super_process_pending_message env w0 = (Ret tt, w1) ->
  current_response (base (self w1)) = None ->
  code_chat_agent (self w1) = Some sub ->
  pending_message (base (self w1)) = Some pending ->
  env_do_task env sub (content pending) false = (None, sub') ->
  process_pending_message content env w0
  = (Ret tt,
     {| self :=
          {| base :=
               {| current_response := None;
                  pending_message := Some pending;
                  task := task (base (self w1)) |};
             url := url (self w1);
             repo_tree := repo_tree (self w1);
             repo_path := repo_path (self w1);
             code_chat_agent := Some sub' |};
        events := (events w1 ++ [DoTask (content pending) false])%list |}).
Proof.
  intros Hsuper Hnone Hsub Hpending Htask.
  unfold process_pending_message. unfold bind at 1. rewrite Hsuper.
  unfold bind at 1. unfold get_self at 1. rewrite Hnone, Hsub, Hpending.
  unfold bind at 1. unfold emit at 1. rewrite Htask.
  unfold set_base, set_current_response, set_code_chat_agent. run.
  now rewrite Hpending.
Qed.

End Delegation.

(** ** Request names and the methods that handle them *)

Section Registry.

Lemma requests_are :
  requests
  = [ "ask_url"; "run_python"; "file_exists"; "python_version";
      "validate_dockerfile"; "python_dependency"; "find_entrypoint";
      "run_container" ].
Proof. reflexivity. Qed.

(** C8, on the code.  The eight request names are pairwise distinct, and
    seven of them name a method of [DockerChatAgent]; no method of the
    class is named [run_container], the request of
    [RunContainerMessage]. *)
Theorem run_container_has_no_handler :
  NoDup requests
  /\ map class_name_of (filter (fun m => has_method (request_of m))
                          message_types)
     = [ "AskURLMessage"; "RunPythonMessage"; "FileExistsMessage";
         "PythonVersionMessage"; "ValidateDockerfileMessage";
         "PythonDependencyMessage"; "EntryPointAndCMDMessage" ]
  /\ request RunContainerMessage = "run_container"
  /\ has_method (request RunContainerMessage) = false
  /\ ~ In (request RunContainerMessage) DockerChatAgent_methods.
Proof.
  split; [|split; [|split; [|split]]].
  - rewrite requests_are.
    repeat (constructor; [simpl; intuition discriminate|]).
    constructor.
  - reflexivity.
  - reflexivity.
  - reflexivity.
  - rewrite <- PyStrFacts.mem_spec. discriminate.
Qed.

End Registry.


(** ** The properties on the concrete agent *)

Lemma handlers_fall_back_without_repo_witness :
  repo_path (self Sample.fresh) = None
  /\ handle_message_fallback "" Sample.fresh
     = (Ret (Some MSG_URL_NOT_SENT), Sample.fresh)
  /\ python_version Sample.env Sample.which_python Sample.fresh
     = handle_message_fallback "" Sample.fresh
  /\ file_exists Sample.env Sample.readme Sample.fresh
     = handle_message_fallback "" Sample.fresh
  /\ python_dependency Sample.env Sample.which_dependencies Sample.fresh
     = handle_message_fallback "" Sample.fresh
  /\ validate_dockerfile Sample.image_id Sample.env Sample.full_dockerfile
       true Sample.fresh
     = handle_message_fallback "" Sample.fresh
  /\ find_entrypoint Sample.env Sample.which_entrypoint Sample.fresh
     = handle_message_fallback "" Sample.fresh.
Proof.
  split; [reflexivity|].
  apply (handlers_fall_back_without_repo Sample.image_id Sample.env
           Sample.fresh Sample.which_python Sample.readme
           Sample.which_dependencies Sample.full_dockerfile true
           Sample.which_entrypoint).
  reflexivity.
Defined.

(** The listing has [README.md], the model has no answer, and what
    [file_exists] returns is not the bare sentence: a newline and twelve
    spaces come first. *)
Lemma file_exists_README_is_indented :
  repo_path (self Sample.cloned) = Some "/tmp/testing-ml"
  /\ model_answer Sample.env Sample.cloned (REQ_FILE_EXISTS "README.md")
     = None
  /\ In "README.md" (Repo.listing_files Sample.listing)
  /\ fst (file_exists Sample.env Sample.readme Sample.cloned)
     <> Ret (Some "Yes, there is a file named README.md in the repo.")
  /\ ~ In "README.md" ["setup.py"]
  /\ fst (file_exists Sample.env Sample.readme Sample.bare)
     <> Ret (Some "No, there is no file named README.md in the repo.").
Proof.
  split; [reflexivity|]. split; [reflexivity|]. split; [now left|].
  split; [vm_compute; discriminate|].
  split; [intros [H|[]]; discriminate|].
  vm_compute; discriminate.
Qed.

Lemma file_exists_README_witness :
  fst (file_exists Sample.env Sample.readme Sample.cloned)
  = Ret (Some (PyStr.nl ++ "            "
               ++ "Yes, there is a file named README.md in the repo."))
  /\ fst (file_exists Sample.env Sample.readme Sample.bare)
     = Ret (Some (PyStr.nl ++ "            "
                  ++ "No, there is no file named README.md in the repo.")).
Proof.
  split.
  - apply (file_exists_README Sample.env Sample.cloned Sample.readme
             (path := "/tmp/testing-ml") (t := Sample.listing));
      try reflexivity.
    now left.
  - apply (file_exists_README Sample.env Sample.bare Sample.readme
             (path := "/tmp/testing-ml")
             (t := {| Repo.listing_dirs := ["src"];
                      Repo.listing_files := ["setup.py"] |}));
      try reflexivity.
    intros [H|[]]; discriminate.
Defined.

(** Without [repo_path], [python_version] consults no resolver, and
    although neither resolver has anything to say it does not return
    ["Couldn't identify the python version"]. *)
Lemma python_version_without_repo_asks_nobody :
  model_answer Sample.env Sample.fresh REQ_PYTHON_VERSION = None
  /\ (forall path, env_get_python_version Sample.env path = None)
  /\ events (snd (python_version Sample.env Sample.which_python
                    Sample.fresh)) = []
  /\ fst (python_version Sample.env Sample.which_python Sample.fresh)
     <> Ret (Some "Couldn't identify the python version").
Proof.
  split; [reflexivity|]. split; [reflexivity|]. split; [reflexivity|].
  vm_compute; discriminate.
Qed.

Lemma python_version_two_stages_witness :
  fst (python_version Sample.env Sample.which_python Sample.cloned)
  = Ret (Some "Couldn't identify the python version")
  /\ events (snd (python_version Sample.env Sample.which_python
                    Sample.cloned))
     = [ AskAgent REQ_PYTHON_VERSION NO_ANSWER false;
         GetPythonVersion "/tmp/testing-ml";
         Log "error" "Could not determine Python version." ].
Proof.
  apply (python_version_two_stages Sample.env Sample.cloned
           Sample.which_python (path := "/tmp/testing-ml"));
    reflexivity.
Defined.

(** Without [repo_path], a content shorter than 20 characters is not
    answered by the corrective message about the parameter. *)
Lemma validate_dockerfile_short_without_repo :
  String.length (proposed_text Sample.name_only) < 20
  /\ fst (validate_dockerfile Sample.image_id Sample.env Sample.name_only
            true Sample.fresh)
     = Ret (Some MSG_URL_NOT_SENT)
  /\ Some MSG_URL_NOT_SENT <> Some MSG_INVALID_PARAMETER
  /\ ~ PyStr.occurs_in "dockerfile" MSG_URL_NOT_SENT.
Proof.
  split; [simpl; lia|]. split; [reflexivity|].
  split; [vm_compute; discriminate|].
  rewrite <- PyStrFacts.contains_spec. vm_compute. discriminate.
Qed.

Lemma validate_dockerfile_short_content_witness :
  validate_dockerfile Sample.image_id Sample.env Sample.two_lines true
    Sample.cloned
  = (Ret (Some MSG_INVALID_PARAMETER), Sample.cloned)
  /\ PyStr.occurs_in
       "should contain the CONTENTS of the " MSG_INVALID_PARAMETER
  /\ PyStr.occurs_in
       "proposed dockerfile, NOT the NAME of the Dockerfile"
       MSG_INVALID_PARAMETER.
Proof.
  apply (validate_dockerfile_short_content Sample.image_id Sample.env
           Sample.cloned Sample.two_lines true (path := "/tmp/testing-ml")).
  - reflexivity.
  - simpl. lia.
Defined.

(** The docker daemon cannot be reached during the build: what the
    docker client raises is not of the [DockerException] family, so
    [_build_docker_image] returns no triple but raises, and the exception
    leaves [validate_dockerfile] too. *)
Lemma build_docker_image_can_raise :
  fst (_build_docker_image
         (Sample.make_env None
            (Raise (OtherError
                      "requests.exceptions.ConnectionError: Connection aborted.")))
         "Dockerfile_proposed" "validate_img" Sample.cloned)
  = Raise (OtherError
             "requests.exceptions.ConnectionError: Connection aborted.")
  /\ fst (validate_dockerfile Sample.image_id
            (Sample.make_env None
               (Raise (OtherError
                         "requests.exceptions.ConnectionError: Connection aborted.")))
            Sample.full_dockerfile true Sample.cloned)
     = Raise (OtherError
                "requests.exceptions.ConnectionError: Connection aborted.").
Proof. split; reflexivity. Qed.

Lemma build_docker_image_triple_within_docker_errors_witness :
  (exists image log duration,
      fst (_build_docker_image Sample.env "Dockerfile_proposed"
             "validate_img" Sample.cloned)
      = Ret (image, log, duration))
  /\ validate_dockerfile Sample.image_id Sample.env Sample.full_dockerfile
       true Sample.cloned
     = (Ret (Some ("Docker build failed with error message: "
                   ++ "Image build failed: " ++ "pull access denied")),
        {| self := self Sample.cloned;
           events :=
             [ PromptAsk "Please confirm dockerfile validation";
               OpenWrite "/tmp/testing-ml/Dockerfile_proposed"
                 (proposed_text Sample.full_dockerfile);
               ImagesBuild (Some "/tmp/testing-ml") "validate_img"
                 "Dockerfile_proposed" ] |}).
Proof.
  destruct (build_docker_image_triple_within_docker_errors Sample.image_id
              Sample.env Sample.cloned "Dockerfile_proposed" "validate_img")
    as (Htotal & _ & _ & _ & H).
  split.
  - apply Htotal. intros e He. inversion He. reflexivity.
  - destruct (H Sample.full_dockerfile true "/tmp/testing-ml"
                (DockerException "pull access denied")) as (Hd & _).
    + reflexivity.
    + simpl. lia.
    + intros _. reflexivity.
    + reflexivity.
    + reflexivity.
    + reflexivity.
    + apply Hd. reflexivity.
Defined.

Lemma process_pending_message_delegation_witness :
  process_pending_message Sample.content Sample.env Sample.cloned
  = (Ret tt,
     {| self :=
          {| base :=
               {| current_response :=
                    Some "Re: Which base image fits this repo?";
                  pending_message :=
                    Some "Re: Which base image fits this repo?";
                  task := "Re: Which base image fits this repo?" |};
             url := DEFAULT_URL;
             repo_tree := Some Sample.listing;
             repo_path := Some "/tmp/testing-ml";
             code_chat_agent := Some 1 |};
        events := [DoTask "Which base image fits this repo?" false] |}).
Proof.
  apply (process_pending_message_delegation Sample.content Sample.env
           Sample.cloned (w1 := Sample.cloned) (sub := 0) (sub' := 1)
           (pending := "Which base image fits this repo?")
           (result := "Re: Which base image fits this repo?"));
    reflexivity.
Defined.

(** ** Further runs on the concrete agent *)

Example fallback_is_silent_once_the_URL_is_mentioned :
  handle_message_fallback "The URL is https://github.com/hello/world"
    Sample.fresh
  = (Ret None, Sample.fresh).
Proof. reflexivity. Qed.

Example fallback_is_silent_once_the_repo_is_known :
  handle_message_fallback "" Sample.cloned = (Ret None, Sample.cloned).
Proof. reflexivity. Qed.

Example python_version_from_the_model :
  python_version Sample.helpful_env Sample.which_python Sample.cloned
  = (Ret (Some "3.11"),
     {| self := set_code_chat_agent (Some 1) (self Sample.cloned);
        events := [AskAgent REQ_PYTHON_VERSION NO_ANSWER false] |}).
Proof. reflexivity. Qed.

Example file_exists_from_the_model :
  fst (file_exists Sample.helpful_env Sample.readme Sample.bare)
  = Ret (Some "3.11").
Proof. reflexivity. Qed.

Example python_dependency_not_found :
  fst (python_dependency Sample.env Sample.which_dependencies Sample.cloned)
  = Ret (Some "Dependencies are not defined in this repo").
Proof. reflexivity. Qed.

Example find_entrypoint_not_found :
  fst (find_entrypoint Sample.env Sample.which_entrypoint Sample.cloned)
  = Ret (Some
           "I couldn't identify potentail main scripts for the ENTRYPOINT").
Proof. reflexivity. Qed.

Example validate_dockerfile_builds_and_cleans_up :
  validate_dockerfile Sample.image_id Sample.building_env
    Sample.full_dockerfile false Sample.cloned
  = (Ret (Some ("Docker image built successfully and build time took:"
                ++ "12.34" ++ " Seconds...")),
     {| self := self Sample.cloned;
        events :=
          [ OpenWrite "/tmp/testing-ml/Dockerfile_proposed"
              (proposed_text Sample.full_dockerfile);
            ImagesBuild (Some "/tmp/testing-ml") "validate_img"
              "Dockerfile_proposed";
            PathExists "/tmp/testing-ml/Dockerfile_proposed";
            OsRemove "/tmp/testing-ml/Dockerfile_proposed";
            Log "info"
              ("Dockerfile at path '/tmp/testing-ml/Dockerfile_proposed'"
               ++ " has been removed.");
            ImagesRemove "sha256:0a1b";
            ImagesGet "sha256:0a1b";
            Log "info" "Image removed successfully!" ] |}).
Proof. reflexivity. Qed.

Example build_docker_image_lets_other_errors_through :
  fst (_build_docker_image
         (Sample.make_env None (Raise (TypeError "path must be a string")))
         "Dockerfile_proposed" "validate_img" Sample.cloned)
  = Raise (TypeError "path must be a string").
Proof. reflexivity. Qed.

Example process_pending_message_without_code_chat_agent :
  fst (process_pending_message Sample.content Sample.env Sample.fresh)
  = Raise (AttributeError "'NoneType' object has no attribute 'do_task'").
Proof. reflexivity. Qed.

End DockerChatFacts.

(* ================================================================== *)
(** * Further properties of [AzureGPT.__init__] *)
(* ================================================================== *)

Module AzureMore.

Import Azure.

Lemma lex_lt_trans (a b c : string) :
  PyStr.lex_lt a b -> PyStr.lex_lt b c -> PyStr.lex_lt a c.
Proof.
  intros Hab. revert c.
  induction Hab as [x t | x y s t Hxy | x s t Hst IH]; intros c Hbc.
  - inversion Hbc; subst; constructor.
  - inversion Hbc; subst.
    + apply PyStr.lex_lt_head. lia.
    + now apply PyStr.lex_lt_head.
  - inversion Hbc; subst.
    + now apply PyStr.lex_lt_head.
    + apply PyStr.lex_lt_tail. now apply IH.
Qed.

Lemma lex_ge_trans (a b c : string) :
  PyStr.lex_ge a b -> PyStr.lex_ge b c -> PyStr.lex_ge a c.
Proof.
  unfold PyStr.lex_ge. intros [->|Hab] [->|Hbc]; auto.
  right. eapply lex_lt_trans; eassumption.
Qed.

Section Construction.

Context {SyncClient AsyncClient OpenAIGPT : Type}.
Variable OpenAIGPT_init : AzureConfig SyncClient AsyncClient -> OpenAIGPT.
Variable new_AzureOpenAI : string -> string -> string -> string -> SyncClient.
Variable new_AsyncAzureOpenAI :
  string -> string -> string -> string -> Z -> AsyncClient.
Variable with_timeout : AsyncClient -> Z -> AsyncClient.

Let Config := AzureConfig SyncClient AsyncClient.
Let Object := AzureGPT SyncClient AsyncClient OpenAIGPT.

Let init (c : Config) :=
  AzureGPT_init OpenAIGPT_init new_AzureOpenAI new_AsyncAzureOpenAI
    with_timeout c.

Lemma eqb_empty (s : string) : String.eqb s "" = false <-> s <> "".
Proof. apply String.eqb_neq. Qed.

(** X1.  The [ValueError] of the constructor names the first setting
    that is missing, in the order deployment name, model name, API key,
    API base: an empty deployment name is reported whatever else is
    missing, an empty model name is reported even when a client provider
    is supplied, and the API base is reported only when the API key is
    there.  The four messages name four different environment
    variables. *)
Theorem init_error_names_first_missing (c : Config) (msg : string) :
  init c = Raise (ValueError msg) ->
  (deployment_name c = "" -> msg = MSG_DEPLOYMENT_NAME)
  /\ (deployment_name c <> "" -> model_name c = "" -> msg = MSG_MODEL_NAME)
  /\ (deployment_name c <> "" -> model_name c <> "" ->
      azure_openai_client_provider c = None
      /\ azure_openai_async_client_provider c = None
      /\ (api_key c = "" -> msg = MSG_API_KEY)
      /\ (api_key c <> "" -> api_base c = "" /\ msg = MSG_API_BASE))
  /\ PyStr.occurs_in "AZURE_OPENAI_DEPLOYMENT_NAME" MSG_DEPLOYMENT_NAME
  /\ PyStr.occurs_in "AZURE_OPENAI_MODEL_NAME" MSG_MODEL_NAME
  /\ PyStr.occurs_in "AZURE_OPENAI_API_KEY" MSG_API_KEY
  /\ PyStr.occurs_in "AZURE_OPENAI_API_BASE" MSG_API_BASE.
Proof.
  unfold init, AzureGPT_init. intros H.
  assert (Hocc :
            PyStr.occurs_in "AZURE_OPENAI_DEPLOYMENT_NAME" MSG_DEPLOYMENT_NAME
            /\ PyStr.occurs_in "AZURE_OPENAI_MODEL_NAME" MSG_MODEL_NAME
            /\ PyStr.occurs_in "AZURE_OPENAI_API_KEY" MSG_API_KEY
            /\ PyStr.occurs_in "AZURE_OPENAI_API_BASE" MSG_API_BASE).
  { repeat split; apply PyStrFacts.contains_spec; reflexivity. }
  destruct (String.eqb (deployment_name c) "") eqn:Ed.
  - apply String.eqb_eq in Ed. inversion H; subst msg.
    repeat split; try apply Hocc; intros; try reflexivity; contradiction.
  - apply eqb_empty in Ed.
    destruct (String.eqb (model_name c) "") eqn:Em.
    + apply String.eqb_eq in Em. inversion H; subst msg.
      repeat split; try apply Hocc; intros; try reflexivity; contradiction.
    + apply eqb_empty in Em.
      destruct (azure_openai_client_provider c) as [p|] eqn:Ep;
        [discriminate|].
      destruct (azure_openai_async_client_provider c) as [q|] eqn:Eq;
        [discriminate|].
      simpl in H.
      destruct (String.eqb (api_key c) "") eqn:Ek.
      * apply String.eqb_eq in Ek. inversion H; subst msg.
        repeat split; try apply Hocc; intros; try reflexivity;
          contradiction.
      * apply eqb_empty in Ek.
        destruct (String.eqb (api_base c) "") eqn:Eb; [|discriminate].
        apply String.eqb_eq in Eb. inversion H; subst msg.
        repeat split; try apply Hocc; intros; try reflexivity;
          try assumption; contradiction.
Qed.

(** X2.  A client provider stands in for the credentials: with both
    names set and a provider of either kind, construction succeeds
    whatever [api_key] and [api_base] are.  Each client is the product of
    its provider, the asynchronous one with the configured timeout, and
    is [None] when its provider is missing; a warning is logged for each
    missing provider and for nothing else. *)
Theorem providers_stand_in_for_credentials (c : Config) :
  deployment_name c <> "" ->
  model_name c <> "" ->
  azure_openai_client_provider c <> None
  \/ azure_openai_async_client_provider c <> None ->
  exists g : Object,
    init c = Ret g
    /\ client g
       = option_map (fun mk => mk tt) (azure_openai_client_provider c)
    /\ async_client g
       = option_map (fun mk => with_timeout (mk tt) (timeout c))
           (azure_openai_async_client_provider c)
    /\ (In WARN_ONLY_ASYNC (warnings g)
        <-> azure_openai_client_provider c = None)
    /\ (In WARN_NO_ASYNC (warnings g)
        <-> azure_openai_async_client_provider c = None)
    /\ (forall w, In w (warnings g) ->
                  w = WARN_ONLY_ASYNC \/ w = WARN_NO_ASYNC).
Proof.
  intros Hd Hm Hp. unfold init, AzureGPT_init.
  apply eqb_empty in Hd. apply eqb_empty in Hm. rewrite Hd, Hm.
  assert (Hne : WARN_ONLY_ASYNC <> WARN_NO_ASYNC) by (vm_compute; discriminate).
  destruct (azure_openai_client_provider c) as [p|] eqn:Ep;
    destruct (azure_openai_async_client_provider c) as [q|] eqn:Eq;
    simpl.
  - eexists. split; [reflexivity|]. unfold provided_clients, finish.
    rewrite Ep, Eq. simpl. repeat split; try discriminate; try contradiction.
  - eexists. split; [reflexivity|]. unfold provided_clients, finish.
    rewrite Ep, Eq. simpl.
    repeat split; try discriminate; try contradiction; auto.
    + intros [H|[]]. now elim Hne.
    + intros w [H|[]]. now right.
  - eexists. split; [reflexivity|]. unfold provided_clients, finish.
    rewrite Ep, Eq. simpl.
    repeat split; try discriminate; try contradiction; auto.
    + intros [H|[]]. symmetry in H. now elim Hne.
    + intros w [H|[]]. now left.
  - destruct Hp as [H|H]; now elim H.
Qed.

(** X3.  Every object that the constructor returns has a non-empty
    deployment name and a non-empty chat model, which is the configured
    model name whatever [chat_model] was before; every other field of
    the configuration, the ten of them, is as it was given; and at least
    one of its two clients is there.
    Built from the credentials, both clients are there, made from the API
    key, the API base, the API version and the deployment name, and no
    warning is logged. *)
Theorem constructed_object_invariants (c : Config) (g : Object) :
  init c = Ret g ->
  chat_model (config g) = model_name c
  /\ model_name c <> ""
  /\ self_deployment_name g = deployment_name c
  /\ deployment_name c <> ""
  /\ (api_key (config g) = api_key c
      /\ type (config g) = type c
      /\ api_version (config g) = api_version c
      /\ deployment_name (config g) = deployment_name c
      /\ model_name (config g) = model_name c
      /\ model_version (config g) = model_version c
      /\ api_base (config g) = api_base c
      /\ azure_openai_client_provider (config g)
         = azure_openai_client_provider c
      /\ azure_openai_async_client_provider (config g)
         = azure_openai_async_client_provider c
      /\ timeout (config g) = timeout c)
  /\ (client g <> None \/ async_client g <> None)
  /\ (azure_openai_client_provider c = None ->
      azure_openai_async_client_provider c = None ->
      api_key c <> "" /\ api_base c <> ""
      /\ client g
         = Some (new_AzureOpenAI (api_key c) (api_base c) (api_version c)
                   (deployment_name c))
      /\ async_client g
         = Some (new_AsyncAzureOpenAI (api_key c) (api_base c)
                   (api_version c) (deployment_name c) (timeout c))
      /\ warnings g = []).
Proof.
  unfold init, AzureGPT_init. intros H.
  destruct (String.eqb (deployment_name c) "") eqn:Ed; [discriminate|].
  destruct (String.eqb (model_name c) "") eqn:Em; [discriminate|].
  apply eqb_empty in Ed. apply eqb_empty in Em.
  destruct (azure_openai_client_provider c) as [p|] eqn:Ep;
    destruct (azure_openai_async_client_provider c) as [q|] eqn:Eq;
    simpl in H.
  - inversion H; subst g. unfold provided_clients, finish.
    rewrite Ep, Eq. simpl.
    repeat split; try assumption; try discriminate.
    left; discriminate.
  - inversion H; subst g. unfold provided_clients, finish.
    rewrite Ep, Eq. simpl.
    repeat split; try assumption; try discriminate.
    left; discriminate.
  - inversion H; subst g. unfold provided_clients, finish.
    rewrite Ep, Eq. simpl.
    repeat split; try assumption; try discriminate.
    right; discriminate.
  - destruct (String.eqb (api_key c) "") eqn:Ek; [discriminate|].
    destruct (String.eqb (api_base c) "") eqn:Eb; [discriminate|].
    apply eqb_empty in Ek. apply eqb_empty in Eb.
    inversion H; subst g. unfold built_clients, finish. simpl.
    repeat split; try assumption; try reflexivity.
    left; discriminate.
Qed.

(** X4.  Support for JSON schemas is monotone in the API version: of two
    configurations that differ in [api_version] only, the one whose
    version is lexicographically at least the other's supports JSON
    schemas whenever the other does. *)
Theorem supports_json_schema_monotone (c1 c2 : Config) (g1 g2 : Object) :
  init c1 = Ret g1 ->
  init c2 = Ret g2 ->
  model_version c1 = model_version c2 ->
  PyStr.lex_ge (api_version c2) (api_version c1) ->
  supports_json_schema g1 = true ->
  supports_json_schema g2 = true.
Proof.
  intros H1 H2 Hm Hge.
  assert (S1 : supports_json_schema g1 = json_schema_supported c1).
  { revert H1. unfold init, AzureGPT_init, finish, provided_clients,
      built_clients.
    repeat match goal with
           | |- context [if ?b then _ else _] => destruct b
           end; intros H; inversion H; reflexivity. }
  assert (S2 : supports_json_schema g2 = json_schema_supported c2).
  { revert H2. unfold init, AzureGPT_init, finish, provided_clients,
      built_clients.
    repeat match goal with
           | |- context [if ?b then _ else _] => destruct b
           end; intros H; inversion H; reflexivity. }
  rewrite S1, S2. unfold json_schema_supported.
  rewrite !andb_true_iff, !PyStrFacts.ge_spec, <- Hm.
  intros [Hv Hmem]. split; [|assumption].
  eapply lex_ge_trans; eassumption.
Qed.

End Construction.

End AzureMore.

(* ================================================================== *)
(** * Further properties of the docker-chat agent *)
(* ================================================================== *)

Module DockerChatMore.

Import Messages DockerChat DockerChatFacts Texts.

Lemma dict_get_missing (k : string) (d : Dict) :
  (forall v, ~ In (k, v) d) -> dict_get k d = Raise (KeyError k).
Proof.
  induction d as [|[k' v'] d IH]; intros H; simpl.
  - reflexivity.
  - destruct (String.eqb k k') eqn:E.
    + apply String.eqb_eq in E. subst k'. elim (H v'). now left.
    + apply IH. intros v Hv. apply (H v). now right.
Qed.


Section Handlers.

Context {SubAgent Image Message Tree Task : Type}.
Variable env : Env SubAgent Image Message Tree Task.

Local Abbreviation World := (World SubAgent Message Tree Task).

(** X5.  Once the repository is known, an answer of the code-chat agent
    that is not [None] is the last word: [file_exists],
    [python_dependency] and [find_entrypoint] return it as it is, and the
    question to the agent is the only event, so neither the repository
    tree nor the local analysis is consulted. *)
Theorem model_answer_is_returned_as_it_is
    (w : World) (path answer : string)
    (mf : FileExistsMessage) (md : PythonDependencyMessage)
    (me : EntryPointAndCMDMessage) :
  repo_path (self w) = Some path ->
  (model_answer env w (REQ_FILE_EXISTS (filename mf)) = Some answer ->
   fst (file_exists env mf w) = Ret (Some answer)
   /\ events (snd (file_exists env mf w))
      = (events w
         ++ [AskAgent (REQ_FILE_EXISTS (filename mf)) NO_ANSWER false])%list)
  /\ (model_answer env w REQ_DEPENDENCY = Some answer ->
      fst (python_dependency env md w) = Ret (Some answer)
      /\ events (snd (python_dependency env md w))
         = (events w ++ [AskAgent REQ_DEPENDENCY NO_ANSWER false])%list)
  /\ (model_answer env w REQ_ENTRYPOINT = Some answer ->
      fst (find_entrypoint env me w) = Ret (Some answer)
      /\ events (snd (find_entrypoint env me w))
         = (events w ++ [AskAgent REQ_ENTRYPOINT NO_ANSWER false])%list).
Proof.
  intros Hp. split; [|split]; intros Ha.
  - assert (E : file_exists env mf w
                = (Ret (Some answer),
                   asked env w (REQ_FILE_EXISTS (filename mf)))).
    { unfold file_exists. unfold bind at 1. unfold get_self. rewrite Hp.
      unfold bind at 1. now rewrite ask_agent_run, Ha. }
    rewrite E. split; reflexivity.
  - assert (E : python_dependency env md w
                = (Ret (Some answer), asked env w REQ_DEPENDENCY)).
    { unfold python_dependency. unfold bind at 1. unfold get_self.
      rewrite Hp. unfold bind at 1. now rewrite ask_agent_run, Ha. }
    rewrite E. split; reflexivity.
  - assert (E : find_entrypoint env me w
                = (Ret (Some answer), asked env w REQ_ENTRYPOINT)).
    { unfold find_entrypoint. unfold bind at 1. unfold get_self.
      rewrite Hp. cbn [is_None]. unfold bind at 1.
      now rewrite ask_agent_run, Ha. }
    rewrite E. split; reflexivity.
Qed.

(** X6.  Once the repository is known and the code-chat agent has no
    answer, [python_dependency] asks the local analysis, after the agent
    and for the cloned path.  A result that is a non-empty string is
    reported as the way dependencies are managed; [None] or an empty
    string gives ["Dependencies are not defined in this repo"]. *)
Theorem python_dependency_local_stage
    (w : World) (m : PythonDependencyMessage) (path : string) :
  repo_path (self w) = Some path ->
  model_answer env w REQ_DEPENDENCY = None ->
  events (snd (python_dependency env m w))
  = (events w
     ++ [AskAgent REQ_DEPENDENCY NO_ANSWER false;
         IdentifyDependencyManagement path])%list
  /\ (forall found,
         env_identify_dependency_management env path = Some found ->
         found <> "" ->
         fst (python_dependency env m w)
         = Ret (Some ("Dependencies in this repo are managed using: "
                      ++ found)))
  /\ (env_identify_dependency_management env path = None
      \/ env_identify_dependency_management env path = Some "" ->
      fst (python_dependency env m w)
      = Ret (Some "Dependencies are not defined in this repo")).
Proof.
  intros Hp Ha.
  assert (Hrun :
            python_dependency env m w
            = (Ret (Some
                      (if PyStr.truthy
                            (env_identify_dependency_management env path)
                       then "Dependencies in this repo are managed using: "
                            ++ fmt (env_identify_dependency_management env
                                      path)
                       else "Dependencies are not defined in this repo")),
               record (asked env w REQ_DEPENDENCY)
                 [IdentifyDependencyManagement path])).
  { unfold python_dependency. unfold bind at 1. unfold get_self.
    rewrite Hp. unfold bind at 1. rewrite ask_agent_run, Ha.
    unfold identify_dependency_management, record. run.
    now destruct (PyStr.truthy
                    (env_identify_dependency_management env path)). }
  rewrite Hrun. split; [|split].
  - simpl. now rewrite <- app_assoc.
  - intros found Hf Hne. rewrite Hf. simpl.
    destruct found; [now elim Hne | reflexivity].
  - intros [Hf|Hf]; rewrite Hf; reflexivity.
Qed.

(** X7.  Once the repository is known and the code-chat agent has no
    answer, [file_exists] decides on what [RepoLoader.select] returns for
    the one file name.  An empty dictionary means no; a dictionary that
    has entries but none under ["files"] makes the handler raise
    [KeyError]; otherwise the answer is yes exactly when the sequence
    under ["files"] is not empty. *)
Theorem file_exists_reads_files_entry
    (w : World) (message : FileExistsMessage) (path : string) :
  repo_path (self w) = Some path ->
  model_answer env w (REQ_FILE_EXISTS (filename message)) = None ->
  let matches := env_select env (repo_tree (self w)) [filename message] in
  let result := fst (file_exists env message w) in
  (matches = [] ->
   result = Ret (Some (MSG_NO_FILE (filename message))))
  /\ (matches <> [] -> (forall v, ~ In ("files", v) matches) ->
      result = Raise (KeyError "files"))
  /\ (matches <> [] -> dict_get "files" matches = Ret [] ->
      result = Ret (Some (MSG_NO_FILE (filename message))))
  /\ (forall f files,
         dict_get "files" matches = Ret (f :: files) ->
         result = Ret (Some (MSG_YES_FILE (filename message)))).
Proof.
  intros Hp Ha. cbv zeta.
  rewrite (file_exists_local env w message Hp Ha).
  unfold lookup_files.
  destruct (env_select env (repo_tree (self w)) [filename message])
    as [|kv matches] eqn:E.
  - split; [|split; [|split]].
    + reflexivity.
    + intros H. now elim H.
    + intros H. now elim H.
    + intros f files H. discriminate.
  - cbn [List.length Nat.ltb Nat.leb]. split; [|split; [|split]].
    + discriminate.
    + intros _ H. now rewrite (dict_get_missing "files" (kv :: matches) H).
    + intros _ H. now rewrite H.
    + intros f files H. now rewrite H.
Qed.

(** X8.  Once the repository is known, [find_entrypoint] has no local
    stage: whatever the code-chat agent answers, the question to it is
    the only event, and without an answer the handler returns the fixed
    text that it could not identify the main scripts. *)
Theorem find_entrypoint_asks_once
    (w : World) (m : EntryPointAndCMDMessage) (path : string) :
  repo_path (self w) = Some path ->
  events (snd (find_entrypoint env m w))
  = (events w ++ [AskAgent REQ_ENTRYPOINT NO_ANSWER false])%list
  /\ (model_answer env w REQ_ENTRYPOINT = None ->
      fst (find_entrypoint env m w)
      = Ret (Some
               "I couldn't identify potentail main scripts for the ENTRYPOINT")).
Proof.
  intros Hp.
  assert (E : find_entrypoint env m w
              = (Ret (Some
                        (match model_answer env w REQ_ENTRYPOINT with
                         | Some answer => answer
                         | None =>
                             "I couldn't identify potentail main scripts for the ENTRYPOINT"
                         end)),
                 asked env w REQ_ENTRYPOINT)).
  { unfold find_entrypoint. unfold bind at 1. unfold get_self.
    rewrite Hp. cbn [is_None]. unfold bind at 1. rewrite ask_agent_run.
    now destruct (model_answer env w REQ_ENTRYPOINT). }
  rewrite E. split; [reflexivity|]. intros Ha. now rewrite Ha.
Qed.

End Handlers.

Section Validation.

Context {SubAgent Image Message Tree Task : Type}.
Variable image_id : Image -> string.
Variable env : Env SubAgent Image Message Tree Task.

Local Abbreviation World := (World SubAgent Message Tree Task).

(** [_save_dockerfile], by the state of [repo_path] and the outcome of
    the write. *)
Lemma save_dockerfile_cases (w : World) (text name : string) :
  _save_dockerfile env text name w
  = match repo_path (self w) with
    | None =>
        (Ret (SAVE_ERROR
                (TypeError
                   "expected str, bytes or os.PathLike object, not NoneType")),
         w)
    | Some path =>
        (Ret (match env_open_write env (os_path_join path name) text with
              | Ret _ => os_path_join path name
              | Raise e => SAVE_ERROR e
              end),
         record w [OpenWrite (os_path_join path name) text])
    end.
Proof.
  unfold _save_dockerfile, open_write, record, SAVE_ERROR. run.
  destruct (repo_path (self w)) as [path|]; simpl.
  - now destruct (env_open_write env (os_path_join path name) text).
  - now destruct w.
Qed.

(** X9.  [_save_dockerfile] never raises.  It writes to the proposed
    name joined to [repo_path] and returns that path; when the write
    raises, whatever the exception, it returns the text
    ["An error occurred while saving the Dockerfile: "] followed by the
    error; with no [repo_path] it returns such a text without attempting
    any write. *)
Theorem save_dockerfile_never_raises (w : World) (text name : string) :
  (exists r, fst (_save_dockerfile env text name w) = Ret r)
  /\ (repo_path (self w) = None ->
      snd (_save_dockerfile env text name w) = w
      /\ exists r, fst (_save_dockerfile env text name w) = Ret r
                   /\ PyStr.startswith "An error" r = true)
  /\ (forall path,
         repo_path (self w) = Some path ->
         events (snd (_save_dockerfile env text name w))
         = (events w ++ [OpenWrite (os_path_join path name) text])%list
         /\ (env_open_write env (os_path_join path name) text = Ret tt ->
             fst (_save_dockerfile env text name w)
             = Ret (os_path_join path name))
         /\ (forall e,
                env_open_write env (os_path_join path name) text = Raise e ->
                fst (_save_dockerfile env text name w)
                = Ret ("An error occurred while saving the Dockerfile: "
                       ++ exn_str e))).
Proof.
  rewrite save_dockerfile_cases.
  destruct (repo_path (self w)) as [path|] eqn:Hp.
  - split; [eexists; reflexivity|]. split; [discriminate|].
    intros path' H. inversion H; subst path'. simpl.
    split; [reflexivity|]. split.
    + intros Hw. now rewrite Hw.
    + intros e Hw. now rewrite Hw.
  - split; [eexists; reflexivity|]. split.
    + intros _. split; [reflexivity|]. eexists. split; reflexivity.
    + discriminate.
Qed.

(** [validate_dockerfile] up to the save: the repository is known and
    the content is long enough. *)
Lemma validate_dockerfile_up_to_prompt
    (w : World) (dockerfile_msg : ValidateDockerfileMessage)
    (confirm : bool) (path : string) :
  repo_path (self w) = Some path ->
  20 <= String.length (proposed_text dockerfile_msg) ->
  let answer :=
    env_prompt_ask env "Please confirm dockerfile validation" ["y"; "n"] "y"
  in
  let full_path := os_path_join path "Dockerfile_proposed" in
  let text := proposed_text dockerfile_msg in
  validate_dockerfile image_id env dockerfile_msg confirm w
  = if confirm && negb (String.eqb (PyStr.lower answer) "y")
    then (Ret (Some MSG_NOT_READY), record w (prompted confirm))
    else
      match env_open_write env full_path text with
      | Raise e =>
          (Ret (Some (SAVE_ERROR e)),
           record w (prompted confirm ++ [OpenWrite full_path text]))
      | Ret _ =>
          if PyStr.startswith "An error" full_path
          then (Ret (Some full_path),
                record w (prompted confirm ++ [OpenWrite full_path text]))
          else
            bind
              (_build_docker_image env "Dockerfile_proposed" "validate_img")
              (fun built =>
                 let '(img, build_log, build_time) := built in
                 match img with
                 | Some i =>
                     bind (_cleanup_dockerfile env (image_id i) full_path)
                       (fun _ =>
                          ret (Some
                                 ("Docker image built successfully and build time took:"
                                  ++ fmt build_time ++ " Seconds...")))
                 | None =>
                     ret (Some ("Docker build failed with error message: "
                                ++ build_log))
                 end)
              (record w (prompted confirm ++ [OpenWrite full_path text]))
      end.
Proof.
  intros Hp Hlen. cbv zeta.
  unfold validate_dockerfile. unfold bind at 1. unfold get_self.
  rewrite Hp. cbn [is_None]. cbv beta iota.
  apply Nat.ltb_ge in Hlen. rewrite Hlen.
  assert (Hsave : forall es,
             _save_dockerfile env (proposed_text dockerfile_msg)
               "Dockerfile_proposed" (record w es)
             = (Ret (match env_open_write env
                             (os_path_join path "Dockerfile_proposed")
                             (proposed_text dockerfile_msg) with
                     | Ret _ => os_path_join path "Dockerfile_proposed"
                     | Raise e => SAVE_ERROR e
                     end),
                record w
                  (es ++ [OpenWrite (os_path_join path "Dockerfile_proposed")
                            (proposed_text dockerfile_msg)]))).
  { intros es. rewrite save_dockerfile_cases.
    change (repo_path (self (record w es))) with (repo_path (self w)).
    rewrite Hp. now rewrite record_record. }
  destruct confirm.
  - unfold bind at 1. unfold bind at 1. unfold Prompt_ask at 1.
    unfold bind at 1. unfold emit at 1. unfold ret at 1.
    unfold ret at 1. cbn [andb prompted].
    fold (record w [PromptAsk "Please confirm dockerfile validation"]).
    destruct (negb (String.eqb (PyStr.lower _) "y")); [reflexivity|].
    unfold bind at 1. rewrite Hsave.
    destruct (env_open_write env _ _) as [[]|e]; [|reflexivity].
    now destruct (PyStr.startswith "An error" _).
  - unfold bind at 1. unfold ret at 1. cbn [andb prompted].
    rewrite <- (record_nil w) at 1.
    unfold bind at 1. rewrite Hsave. cbn [app].
    destruct (env_open_write env _ _) as [[]|e]; [|reflexivity].
    now destruct (PyStr.startswith "An error" _).
Qed.

(** When the validation is not declined, the test on the answer of the
    user does not stop it. *)
Lemma confirmed_goes_on (confirm : bool) :
  confirmed env confirm ->
  confirm
  && negb (String.eqb
             (PyStr.lower
                (env_prompt_ask env "Please confirm dockerfile validation"
                   ["y"; "n"] "y")) "y")
  = false.
Proof.
  unfold confirmed. intros H. destruct confirm; [|reflexivity].
  now rewrite (H eq_refl).
Qed.

(** X10.  When the validation is not declined ([confirm] is false, or
    the user answers ["y"] or ["Y"]) and the proposed Dockerfile cannot
    be written, [validate_dockerfile] returns the text of the failed save
    as its content and stops there: the write is the last event, and
    nothing is built or cleaned up. *)
Theorem validate_dockerfile_save_failure
    (w : World) (dockerfile_msg : ValidateDockerfileMessage)
    (confirm : bool) (path : string) (e : exn) :
  repo_path (self w) = Some path ->
  20 <= String.length (proposed_text dockerfile_msg) ->
  (confirm = true ->
   PyStr.lower
     (env_prompt_ask env "Please confirm dockerfile validation" ["y"; "n"]
        "y") = "y") ->
  env_open_write env (os_path_join path "Dockerfile_proposed")
    (proposed_text dockerfile_msg) = Raise e ->
  validate_dockerfile image_id env dockerfile_msg confirm w
  = (Ret (Some ("An error occurred while saving the Dockerfile: "
                ++ exn_str e)),
     record w
       ((if confirm
         then [PromptAsk "Please confirm dockerfile validation"]
         else [])
        ++ [OpenWrite (os_path_join path "Dockerfile_proposed")
              (proposed_text dockerfile_msg)])).
Proof.
  intros Hp Hlen Hc Hw.
  rewrite (validate_dockerfile_up_to_prompt w dockerfile_msg confirm
             Hp Hlen).
  cbv zeta. rewrite (confirmed_goes_on Hc). now rewrite Hw.
Qed.

(** X11.  Asked to confirm, the user decides.  Any answer that is not
    ["y"] once lowered makes [validate_dockerfile] return the not-ready
    text, which begins with a stray double quote, with the prompt as the
    only event; nothing is written or built.  After the answer ["y"] or
    ["Y"] it goes on exactly as the unconfirmed validation does from the
    world in which the prompt is recorded. *)
Theorem validate_dockerfile_confirmation
    (w : World) (dockerfile_msg : ValidateDockerfileMessage)
    (path : string) :
  repo_path (self w) = Some path ->
  20 <= String.length (proposed_text dockerfile_msg) ->
  let answer :=
    env_prompt_ask env "Please confirm dockerfile validation" ["y"; "n"] "y"
  in
  let prompt := PromptAsk "Please confirm dockerfile validation" in
  (answer <> "y" -> answer <> "Y" ->
   validate_dockerfile image_id env dockerfile_msg true w
   = (Ret (Some MSG_NOT_READY), record w [prompt]))
  /\ (answer = "y" \/ answer = "Y" ->
      validate_dockerfile image_id env dockerfile_msg true w
      = validate_dockerfile image_id env dockerfile_msg false
          (record w [prompt]))
  /\ PyStr.startswith PyStr.dquote MSG_NOT_READY = true.
Proof.
  intros Hp Hlen. cbv zeta. split; [|split].
  - intros Hy HY.
    rewrite (validate_dockerfile_up_to_prompt w dockerfile_msg true Hp Hlen).
    cbv zeta. cbn [andb].
    assert (Hl : String.eqb
                   (PyStr.lower
                      (env_prompt_ask env
                         "Please confirm dockerfile validation"
                         ["y"; "n"] "y")) "y" = false).
    { destruct (env_prompt_ask env _ _ _) as [|c [|d rest]];
        try reflexivity.
      - apply String.eqb_neq. intros H. simpl in H.
        inversion H as [Hc]. clear H.
        destruct c as [[] [] [] [] [] [] [] []];
          try discriminate; [now elim Hy | now elim HY].
      - simpl. now destruct (Ascii.eqb (PyStr.lower_char c) "y"). }
    now rewrite Hl.
  - intros Ha.
    rewrite (validate_dockerfile_up_to_prompt w dockerfile_msg true Hp Hlen).
    assert (Hp' : repo_path
                    (self (record w
                             [PromptAsk
                                "Please confirm dockerfile validation"]))
                  = Some path) by exact Hp.
    rewrite (validate_dockerfile_up_to_prompt _ dockerfile_msg false
               Hp' Hlen).
    cbv zeta. cbn [andb].
    assert (Hl : String.eqb
                   (PyStr.lower
                      (env_prompt_ask env
                         "Please confirm dockerfile validation"
                         ["y"; "n"] "y")) "y" = true).
    { destruct Ha as [-> | ->]; reflexivity. }
    rewrite Hl. cbn [negb prompted]. rewrite !record_record.
    reflexivity.
  - reflexivity.
Qed.

(** X12.  [_cleanup_dockerfile], the file step being passed (there is no
    file, or it could be removed).  The file is removed exactly when it
    exists; the image is always asked to be removed, and looked up again
    exactly when that removal returned.  ["Image removed successfully!"]
    is logged exactly when docker answered [ImageNotFound], to the removal
    or to the lookup after it, and ["Image removal failed!"] exactly when
    both returned.  The only exceptions that leave the method are those
    of the removal or the lookup that are not [ImageNotFound]. *)
Theorem cleanup_dockerfile_reports
    (w : World) (img_id dockerfile_path : string) :
  env_path_exists env dockerfile_path = false
  \/ env_os_remove env dockerfile_path = Ret tt ->
  let removal := env_images_remove env img_id in
  let lookup := env_images_get env img_id in
  let result := fst (_cleanup_dockerfile env img_id dockerfile_path w) in
  let trace :=
    events (snd (_cleanup_dockerfile env img_id dockerfile_path w)) in
  exists es,
    trace = (events w ++ es)%list
    /\ (In (OsRemove dockerfile_path) es
        <-> env_path_exists env dockerfile_path = true)
    /\ In (ImagesRemove img_id) es
    /\ (In (ImagesGet img_id) es <-> removal = Ret tt)
    /\ (In (Log "info" "Image removed successfully!") es
        <-> exists e, is_ImageNotFound e = true
                      /\ (removal = Raise e
                          \/ (removal = Ret tt /\ lookup = Raise e)))
    /\ (In (Log "error" "Image removal failed!") es
        <-> removal = Ret tt /\ lookup = Ret tt)
    /\ (forall e,
           result = Raise e
           <-> is_ImageNotFound e = false
               /\ (removal = Raise e
                   \/ (removal = Ret tt /\ lookup = Raise e))).
Proof.
  intros Hfile. cbv zeta.
  unfold _cleanup_dockerfile, os_path_exists, os_remove, images_remove,
    images_get, logger_info, logger_error.
  run.
  destruct (env_path_exists env dockerfile_path) eqn:Ex;
    [destruct Hfile as [Hf|Hf]; [discriminate|]; rewrite Hf|];
    simpl;
    destruct (env_images_remove env img_id) as [[]|er] eqn:Er; simpl;
    try (destruct (env_images_get env img_id) as [[]|eg] eqn:Eg; simpl;
         try (destruct (is_ImageNotFound eg) eqn:Ig; simpl));
    try (destruct (is_ImageNotFound er) eqn:Ir; simpl);
    (eexists; split;
     [repeat rewrite <- app_assoc; simpl; reflexivity|]);
    repeat split;
    try solve
      [ simpl; intuition (try discriminate; try congruence)
      | simpl; auto 10
      | intros; simpl in *;
        repeat match goal with
               | H : _ \/ _ |- _ => destruct H
               | H : _ /\ _ |- _ => destruct H
               | H : exists _, _ |- _ => destruct H
               | H : False |- _ => elim H
               | H : Raise _ = Raise _ |- _ => inversion H; clear H; subst
               | H : Ret _ = Raise _ |- _ => discriminate H
               | H : Raise _ = Ret _ |- _ => discriminate H
               | H : Log _ _ = _ |- _ => discriminate H
               | H : PathExists _ = _ |- _ => discriminate H
               | H : OsRemove _ = _ |- _ => discriminate H
               | H : ImagesRemove _ = _ |- _ => discriminate H
               | H : ImagesGet _ = _ |- _ => discriminate H
               end;
        try congruence; eauto 10 ].
Qed.

(** [validate_dockerfile] after a successful build: what is left is the
    cleanup of the image that was built. *)
Lemma validate_dockerfile_after_build
    (w : World) (dockerfile_msg : ValidateDockerfileMessage)
    (confirm : bool) (path : string) (image : Image) (logs : list string) :
  repo_path (self w) = Some path ->
  20 <= String.length (proposed_text dockerfile_msg) ->
  confirmed env confirm ->
  let full_path := os_path_join path "Dockerfile_proposed" in
  let text := proposed_text dockerfile_msg in
  env_open_write env full_path text = Ret tt ->
  PyStr.startswith "An error" full_path = false ->
  env_images_build env (Some path) "validate_img" "Dockerfile_proposed"
  = Ret (image, logs) ->
  validate_dockerfile image_id env dockerfile_msg confirm w
  = bind (_cleanup_dockerfile env (image_id image) full_path)
      (fun _ =>
         ret (Some ("Docker image built successfully and build time took:"
                    ++ env_build_seconds env ++ " Seconds...")))
      (record w
         (prompted confirm
          ++ [OpenWrite full_path text;
              ImagesBuild (Some path) "validate_img" "Dockerfile_proposed"])).
Proof.
  intros Hp Hlen Hc full_path text Hw Hs Hb.
  rewrite (validate_dockerfile_up_to_prompt w dockerfile_msg confirm
             Hp Hlen).
  cbv zeta. rewrite (confirmed_goes_on Hc). fold full_path text.
  rewrite Hw, Hs. unfold bind at 1. rewrite build_docker_image_run.
  change (repo_path
            (self (record w (prompted confirm
                             ++ [OpenWrite full_path text]))))
    with (repo_path (self w)).
  rewrite Hp, Hb. rewrite record_record, <- app_assoc. reflexivity.
Qed.

(** X13.  When the validation is not declined ([confirm] is false, or
    the user answers ["y"] or ["Y"]), the proposed Dockerfile is written
    and the image is built, [validate_dockerfile] cleans up with the id
    of that image and the path it wrote to, after the prompt (if any),
    the write and the build.  If the cleanup returns, the content reports
    the success with the formatted build time, the text
    [env_build_seconds]; if the cleanup raises, the exception leaves
    [validate_dockerfile]. *)
Theorem validate_dockerfile_success
    (w : World) (dockerfile_msg : ValidateDockerfileMessage)
    (confirm : bool) (path : string) (image : Image) (logs : list string) :
  repo_path (self w) = Some path ->
  20 <= String.length (proposed_text dockerfile_msg) ->
  (confirm = true ->
   PyStr.lower
     (env_prompt_ask env "Please confirm dockerfile validation" ["y"; "n"]
        "y") = "y") ->
  env_open_write env (os_path_join path "Dockerfile_proposed")
    (proposed_text dockerfile_msg) = Ret tt ->
  PyStr.startswith "An error" (os_path_join path "Dockerfile_proposed")
  = false ->
  env_images_build env (Some path) "validate_img" "Dockerfile_proposed"
  = Ret (image, logs) ->
  let cleanup :=
    _cleanup_dockerfile env (image_id image)
      (os_path_join path "Dockerfile_proposed")
      (record w
         ((if confirm
           then [PromptAsk "Please confirm dockerfile validation"]
           else [])
          ++ [OpenWrite (os_path_join path "Dockerfile_proposed")
                (proposed_text dockerfile_msg);
              ImagesBuild (Some path) "validate_img"
                "Dockerfile_proposed"])) in
  snd (validate_dockerfile image_id env dockerfile_msg confirm w)
  = snd cleanup
  /\ (fst cleanup = Ret tt ->
      fst (validate_dockerfile image_id env dockerfile_msg confirm w)
      = Ret (Some ("Docker image built successfully and build time took:"
                   ++ env_build_seconds env ++ " Seconds...")))
  /\ (forall e,
         fst cleanup = Raise e ->
         fst (validate_dockerfile image_id env dockerfile_msg confirm w)
         = Raise e).
Proof.
  intros Hp Hlen Hc Hw Hs Hb. cbv zeta.
  rewrite (validate_dockerfile_after_build w dockerfile_msg Hp Hlen Hc
             Hw Hs Hb).
  unfold bind, prompted.
  destruct (_cleanup_dockerfile env (image_id image) _ _) as [[[]|e] w'];
    simpl.
  - split; [reflexivity|]. split; [reflexivity|]. discriminate.
  - split; [reflexivity|]. split; [discriminate|].
    intros e' H. now inversion H.
Qed.

(** [_cleanup_dockerfile] when the removal of the image raises something
    other than [ImageNotFound]. *)
Lemma cleanup_dockerfile_removal_error
    (w : World) (img_id dockerfile_path : string) (e : exn) :
  env_path_exists env dockerfile_path = false
  \/ env_os_remove env dockerfile_path = Ret tt ->
  env_images_remove env img_id = Raise e ->
  is_ImageNotFound e = false ->
  fst (_cleanup_dockerfile env img_id dockerfile_path w) = Raise e.
Proof.
  intros Hfile Hr He.
  unfold _cleanup_dockerfile, os_path_exists, os_remove, images_remove,
    images_get, logger_info, logger_error.
  run.
  destruct (env_path_exists env dockerfile_path);
    [destruct Hfile as [Hf|Hf]; [discriminate|]; rewrite Hf|];
    simpl; rewrite Hr; simpl; now rewrite He.
Qed.

(** X14.  An error of docker during the cleanup is not turned into
    text, unlike an error during the build: when the validation is not
    declined ([confirm] is false, or the user answers ["y"] or ["Y"]),
    the image has been built and its removal raises anything but
    [ImageNotFound], be it of the [DockerException] family, that
    exception leaves [validate_dockerfile], and no content is
    returned. *)
Theorem validate_dockerfile_cleanup_error_escapes
    (w : World) (dockerfile_msg : ValidateDockerfileMessage)
    (confirm : bool) (path : string) (image : Image) (logs : list string)
    (e : exn) :
  repo_path (self w) = Some path ->
  20 <= String.length (proposed_text dockerfile_msg) ->
  (confirm = true ->
   PyStr.lower
     (env_prompt_ask env "Please confirm dockerfile validation" ["y"; "n"]
        "y") = "y") ->
  env_open_write env (os_path_join path "Dockerfile_proposed")
    (proposed_text dockerfile_msg) = Ret tt ->
  PyStr.startswith "An error" (os_path_join path "Dockerfile_proposed")
  = false ->
  env_images_build env (Some path) "validate_img" "Dockerfile_proposed"
  = Ret (image, logs) ->
  env_path_exists env (os_path_join path "Dockerfile_proposed") = false
  \/ env_os_remove env (os_path_join path "Dockerfile_proposed") = Ret tt ->
  env_images_remove env (image_id image) = Raise e ->
  is_ImageNotFound e = false ->
  fst (validate_dockerfile image_id env dockerfile_msg confirm w) = Raise e.
Proof.
  intros Hp Hlen Hc Hw Hs Hb Hfile Hr He.
  rewrite (validate_dockerfile_after_build w dockerfile_msg Hp Hlen Hc
             Hw Hs Hb).
  unfold bind.
  pose proof (cleanup_dockerfile_removal_error
                (record w
                   (prompted confirm
                    ++ [OpenWrite (os_path_join path "Dockerfile_proposed")
                          (proposed_text dockerfile_msg);
                        ImagesBuild (Some path) "validate_img"
                          "Dockerfile_proposed"]))
                (image_id image)
                (os_path_join path "Dockerfile_proposed") Hfile Hr He) as Hc'.
  destruct (_cleanup_dockerfile env (image_id image) _ _) as [o w'].
  simpl in Hc'. subst o. reflexivity.
Qed.


End Validation.

Section Delegation.

Context {SubAgent Image Message Tree Task : Type}.
Variable content : Message -> string.
Variable env : Env SubAgent Image Message Tree Task.

Local Abbreviation World := (World SubAgent Message Tree Task).

(** X16.  [process_pending_message] delegates only when the base class
    has returned without a response.  If the base class leaves a
    response, or raises, the method does exactly what the base class did:
    the world is the one the base class left, and [do_task] is not
    called. *)
Theorem no_delegation_after_a_response (w0 w1 : World) :
  (forall r,
      env_super_process_pending_message env w0 = (Ret tt, w1) ->
      current_response (base (self w1)) = Some r ->
      process_pending_message content env w0 = (Ret tt, w1))
  /\ (forall e,
         env_super_process_pending_message env w0 = (Raise e, w1) ->
         process_pending_message content env w0 = (Raise e, w1)).
Proof.
  split.
  - intros r Hsuper Hsome.
    now apply (process_pending_message_answered content env w0 Hsuper Hsome).
  - intros e Hsuper. unfold process_pending_message.
    unfold bind at 1. now rewrite Hsuper.
Qed.

(** X17.  When the base class leaves no response and there is nobody to
    delegate to, [process_pending_message] raises [AttributeError] and
    writes nothing: without a code-chat agent (as before [ask_url]) the
    lookup of [do_task] fails; with one but without a pending message the
    reading of its [content] fails, and [do_task] is not called. *)
Theorem delegation_without_agent_or_message (w0 w1 : World) :
  env_super_process_pending_message env w0 = (Ret tt, w1) ->
  current_response (base (self w1)) = None ->
  (code_chat_agent (self w1) = None ->
   process_pending_message content env w0
   = (Raise (AttributeError "'NoneType' object has no attribute 'do_task'"),
      w1))
  /\ (forall sub,
         code_chat_agent (self w1) = Some sub ->
         pending_message (base (self w1)) = None ->
         process_pending_message content env w0
         = (Raise (AttributeError
                     "'NoneType' object has no attribute 'content'"),
            w1)).
Proof.
  intros Hsuper Hnone. split.
  - intros Hsub. unfold process_pending_message.
    unfold bind at 1. rewrite Hsuper.
    unfold bind at 1. unfold get_self at 1. now rewrite Hnone, Hsub.
  - intros sub Hsub Hpending. unfold process_pending_message.
    unfold bind at 1. rewrite Hsuper.
    unfold bind at 1. unfold get_self at 1.
    now rewrite Hnone, Hsub, Hpending.
Qed.

(** X18.  When the code-chat agent has no result either,
    [process_pending_message] leaves [current_response] at [None], keeps
    the pending message and does not set the task up again; the state of
    the code-chat agent is the one in which [do_task] left it, and the
    call to [do_task] is the one event added. *)
Theorem delegation_without_result
    (w0 w1 : World) (sub sub' : SubAgent) (pending : Message) :
  env_super_process_pending_message env w0 = (Ret tt, w1) ->
  current_response (base (self w1)) = None ->
  code_chat_agent (self w1) = Some sub ->
  pending_message (base (self w1)) = Some pending ->
  env_do_task env sub (content pending) false = (None, sub') ->
  exists w2,
    process_pending_message content env w0 = (Ret tt, w2)
    /\ current_response (base (self w2)) = None
    /\ pending_message (base (self w2)) = Some pending
    /\ task (base (self w2)) = task (base (self w1))
    /\ code_chat_agent (self w2) = Some sub'
    /\ repo_path (self w2) = repo_path (self w1)
    /\ repo_tree (self w2) = repo_tree (self w1)
    /\ url (self w2) = url (self w1)
    /\ events w2 = (events w1 ++ [DoTask (content pending) false])%list.
Proof.
  intros Hsuper Hnone Hsub Hpending Htask.
  eexists. split.
  - apply (process_pending_message_no_result content env w0 Hsuper Hnone
             Hsub Hpending Htask).
  - simpl. repeat split.
Qed.

End Delegation.

End DockerChatMore.

(* ================================================================== *)
(** * Properties of [ask_url] and of the imports *)
(* ================================================================== *)

Module AskUrlFacts.

Import Messages DockerChat DockerChatFacts AskUrl.

Section AskUrl.

Context {SubAgent Message Tree Task LLMConfig : Type}.
Variable uenv : UrlEnv SubAgent Tree LLMConfig.

Local Abbreviation World := (World SubAgent Message Tree Task).

(** X19.  [ask_url] gives the user no second try.  When the URL that
    was typed (or the default, on an empty answer) is refused with a
    [ValueError], the user is shown the error with the request to try
    again, and the method then raises [UnboundLocalError] on
    [url_model], which no assignment has bound: the URL is not asked a
    second time, and the agent is as it was, without [repo_path]. *)
Theorem ask_url_invalid_url_raises
    (fuel : nat) (msg : AskURLMessage) (w : World) (e : exn) :
  let typed := url_typed uenv (events w) PROMPT_URL in
  url_validate uenv (if String.eqb typed "" then DEFAULT_URL else typed)
  = Raise e ->
  is_ValueError e = true ->
  ask_url (Message := Message) (Task := Task) uenv (S fuel) msg w
  = (Raise (UnboundLocalError "url_model"),
     {| self := self w;
        events :=
          (events w
           ++ [PromptAsk PROMPT_URL; PromptAsk (PROMPT_INVALID_URL e)])%list
     |}).
Proof.
  cbv zeta. intros Hv He.
  unfold ask_url. unfold bind at 1. cbn [ask_url_loop].
  unfold bind at 1. unfold ask at 1. cbv beta.
  unfold bind at 1. unfold try_except at 1. unfold bind at 1.
  unfold lift at 1. cbn [events self]. rewrite Hv, He.
  unfold bind at 1. unfold ask at 1. unfold ret at 1. cbv beta iota.
  cbn [events self]. unfold raise. rewrite <- app_assoc. reflexivity.
Qed.

(** X20.  When the URL that was typed is accepted, or the default URL
    on an empty answer, [ask_url] asks once and sets the agent up for
    that URL: [url] is the validated URL, [code_chat_agent] is a new
    code-chat agent named ["Coder"] for it, [repo_path] is what cloning
    returned and [repo_tree] what loading at depth 1 with 20 lines per
    file returned; the fields of the base class stay.  The content
    returned lists the entries of the root of the repository, one per
    line. *)
Theorem ask_url_sets_up_the_repository
    (fuel : nat) (msg : AskURLMessage) (w : World) (u : string) :
  let typed := url_typed uenv (events w) PROMPT_URL in
  url_validate uenv (if String.eqb typed "" then DEFAULT_URL else typed)
  = Ret {| um_url := Some u |} ->
  ask_url (Message := Message) (Task := Task) uenv (S fuel) msg w
  = (Ret (Some (MSG_REPO_INFO
                  (String.concat PyStr.nl
                     (url_ls uenv (url_load uenv u 1 20) 1)))),
     {| self :=
          {| base := base (self w);
             url := u;
             repo_tree := Some (url_load uenv u 1 20);
             repo_path := url_clone uenv u;
             code_chat_agent :=
               Some (url_new_CodeChatAgent uenv
                       {| cfg_name := "Coder";
                          cfg_repo_url := u;
                          cfg_instructions := DOCKER_CODE_CHAT_INSTRUCTIONS;
                          cfg_content_includes :=
                            ["txt"; "md"; "yml"; "yaml"; "sh"; "Makefile"];
                          cfg_content_excludes := ["Dockerfile"];
                          cfg_llm := url_config_llm uenv |}) |};
        events := (events w ++ [PromptAsk PROMPT_URL])%list |}).
Proof.
  cbv zeta. intros Hv.
  unfold ask_url. unfold bind at 1. cbn [ask_url_loop].
  unfold bind at 1. unfold ask at 1. cbv beta.
  unfold bind at 1. unfold try_except at 1. unfold bind at 1.
  unfold lift at 1. cbn [events self]. rewrite Hv.
  unfold ret at 1. cbv beta iota. cbn [um_url]. unfold ret at 1.
  cbv beta iota. cbn [um_url]. reflexivity.
Qed.

(** X21.  What [ask_url] leaves decides the fallback.  After an
    accepted URL whose repository could be cloned,
    [handle_message_fallback] returns [None] for every input, and
    changes nothing; if cloning returned [None], [repo_path] is still
    missing and the fallback goes on asking for the URL, for every input
    that does not mention ["URL"]. *)
Theorem fallback_after_ask_url
    (fuel : nat) (msg : AskURLMessage) (w : World) (u : string) :
  let typed := url_typed uenv (events w) PROMPT_URL in
  url_validate uenv (if String.eqb typed "" then DEFAULT_URL else typed)
  = Ret {| um_url := Some u |} ->
  let w' :=
    snd (ask_url (Message := Message) (Task := Task) uenv (S fuel) msg w) in
  (forall path,
      url_clone uenv u = Some path ->
      forall s, handle_message_fallback s w' = (Ret None, w'))
  /\ (url_clone uenv u = None ->
      forall s,
        ~ PyStr.occurs_in "URL" s ->
        handle_message_fallback s w' = (Ret (Some MSG_URL_NOT_SENT), w')).
Proof.
  cbv zeta. intros Hv.
  assert (Hpath :
            repo_path
              (self (snd (ask_url (Message := Message) (Task := Task) uenv
                            (S fuel) msg w)))
            = url_clone uenv u).
  { unfold ask_url. unfold bind at 1. cbn [ask_url_loop].
    unfold bind at 1. unfold ask at 1. cbv beta.
    unfold bind at 1. unfold try_except at 1. unfold bind at 1.
    unfold lift at 1. cbn [events self]. rewrite Hv.
    unfold ret at 1. cbv beta iota. cbn [um_url]. unfold ret at 1.
    cbv beta iota. cbn [um_url]. reflexivity. }
  split.
  - intros path Hc s. rewrite handle_message_fallback_run, Hpath, Hc.
    reflexivity.
  - intros Hc s Hs. rewrite handle_message_fallback_run, Hpath, Hc.
    apply (f_equal (fun r => (Ret r, _))).
    apply fallback_of_some. now split.
Qed.

End AskUrl.

(** X22.  Of the seven names that [docker_chat_agent.py] imports from
    the module of the messages, six are classes which that module
    defines; it defines no [RunPython] (its class for [run_python] is
    [RunPythonMessage]), so that import finds nothing.  The two classes
    of the module that the agent does not import are [RunPythonMessage]
    and [RunContainerMessage]. *)
Theorem RunPython_is_imported_but_not_defined :
  filter (fun n => negb (PyStr.mem n defined_message_names))
    imported_message_names
  = ["RunPython"]
  /\ filter (fun n => negb (PyStr.mem n imported_message_names))
       defined_message_names
     = ["RunPythonMessage"; "RunContainerMessage"]
  /\ ~ In "RunPython" defined_message_names
  /\ List.length imported_message_names = 7.
Proof.
  split; [reflexivity|]. split; [reflexivity|]. split; [|reflexivity].
  rewrite <- PyStrFacts.mem_spec. discriminate.
Qed.

End AskUrlFacts.

(* ================================================================== *)
(** * The further properties on concrete inputs *)
(* ================================================================== *)

Module MoreRuns.

Import Messages DockerChat DockerChatFacts AskUrl.
Import AzureMore DockerChatMore AskUrlFacts.

Lemma init_error_names_first_missing_witness :
  exists msg,
    MoreSamples.azure_init MoreSamples.no_model_config
    = Raise (ValueError msg)
    /\ msg = Azure.MSG_MODEL_NAME.
Proof.
  exists Azure.MSG_MODEL_NAME. split; [reflexivity|].
  destruct (init_error_names_first_missing (fun _ => tt)
              (fun _ _ _ _ => tt) (fun _ _ _ _ _ => tt) (fun a _ => a)
              MoreSamples.no_model_config (msg := Azure.MSG_MODEL_NAME)
              eq_refl) as (_ & H & _).
  reflexivity.
Defined.

Lemma providers_stand_in_for_credentials_witness :
  exists g,
    MoreSamples.azure_init MoreSamples.only_async_config = Ret g
    /\ Azure.client g = None
    /\ Azure.async_client g = Some tt
    /\ In Azure.WARN_ONLY_ASYNC (Azure.warnings g).
Proof.
  destruct (providers_stand_in_for_credentials (fun _ => tt)
              (fun _ _ _ _ => tt) (fun _ _ _ _ _ => tt) (fun a _ => a)
              MoreSamples.only_async_config)
    as (g & Hg & Hc & Ha & Hw & _).
  - discriminate.
  - discriminate.
  - right. discriminate.
  - exists g. split; [exact Hg|]. split; [exact Hc|]. split; [exact Ha|].
    apply Hw. reflexivity.
Defined.

Lemma constructed_object_invariants_witness :
  Azure.chat_model (Azure.config AzureSample.sample_gpt) = "gpt-4o"
  /\ (Azure.client AzureSample.sample_gpt <> None
      \/ Azure.async_client AzureSample.sample_gpt <> None).
Proof.
  destruct (constructed_object_invariants (fun _ => tt)
              (fun _ _ _ _ => tt) (fun _ _ _ _ _ => tt) (fun a _ => a)
              AzureSample.sample_config (g := AzureSample.sample_gpt)
              eq_refl) as (Hc & _ & _ & _ & _ & Hcl & _).
  split; [exact Hc | exact Hcl].
Defined.

Lemma supports_json_schema_monotone_witness :
  Azure.supports_json_schema AzureSample.sample_gpt = true.
Proof.
  apply (supports_json_schema_monotone (fun _ => tt)
           (fun _ _ _ _ => tt) (fun _ _ _ _ _ => tt) (fun a _ => a)
           MoreSamples.minimal_version_config AzureSample.sample_config
           (g1 := Azure.finish (fun _ => tt)
                    MoreSamples.minimal_version_config
                    (Azure.built_clients (fun _ _ _ _ => tt)
                       (fun _ _ _ _ _ => tt)
                       MoreSamples.minimal_version_config))).
  - reflexivity.
  - reflexivity.
  - reflexivity.
  - apply PyStrFacts.ge_spec. reflexivity.
  - reflexivity.
Defined.

Lemma model_answer_is_returned_as_it_is_witness :
  fst (file_exists Sample.helpful_env Sample.readme Sample.bare)
  = Ret (Some "3.11")
  /\ events (snd (file_exists Sample.helpful_env Sample.readme Sample.bare))
     = [AskAgent (REQ_FILE_EXISTS "README.md") NO_ANSWER false].
Proof.
  destruct (model_answer_is_returned_as_it_is Sample.helpful_env
              Sample.bare (path := "/tmp/testing-ml") "3.11" Sample.readme
              Sample.which_dependencies Sample.which_entrypoint eq_refl)
    as (H & _ & _).
  apply H. reflexivity.
Defined.

Lemma python_dependency_local_stage_witness :
  fst (python_dependency (MoreSamples.make_env (Ret tt) (Ret tt) None)
         Sample.which_dependencies Sample.cloned)
  = Ret (Some "Dependencies in this repo are managed using: requirements.txt").
Proof.
  destruct (python_dependency_local_stage
              (MoreSamples.make_env (Ret tt) (Ret tt) None) Sample.cloned
              Sample.which_dependencies (path := "/tmp/testing-ml")
              eq_refl eq_refl) as (_ & H & _).
  apply (H "requirements.txt"); [reflexivity | discriminate].
Defined.

Lemma file_exists_reads_files_entry_witness :
  fst (file_exists (MoreSamples.make_env (Ret tt) (Ret tt) None)
         Sample.readme Sample.cloned)
  = Raise (KeyError "files").
Proof.
  destruct (file_exists_reads_files_entry
              (MoreSamples.make_env (Ret tt) (Ret tt) None) Sample.cloned
              Sample.readme (path := "/tmp/testing-ml") eq_refl eq_refl)
    as (_ & H & _).
  apply H.
  - discriminate.
  - intros v [E|[]]. discriminate.
Defined.

Lemma find_entrypoint_asks_once_witness :
  events (snd (find_entrypoint Sample.env Sample.which_entrypoint
                 Sample.cloned))
  = [AskAgent REQ_ENTRYPOINT NO_ANSWER false]
  /\ fst (find_entrypoint Sample.env Sample.which_entrypoint Sample.cloned)
     = Ret (Some
              "I couldn't identify potentail main scripts for the ENTRYPOINT").
Proof.
  destruct (find_entrypoint_asks_once Sample.env Sample.cloned
              Sample.which_entrypoint (path := "/tmp/testing-ml") eq_refl)
    as (He & Hr).
  split; [exact He | apply Hr; reflexivity].
Defined.

Lemma save_dockerfile_never_raises_witness :
  fst (_save_dockerfile MoreSamples.full_disk_env "FROM python:3.11"
         "Dockerfile_proposed" Sample.cloned)
  = Ret ("An error occurred while saving the Dockerfile: "
         ++ "[Errno 28] No space left on device").
Proof.
  destruct (save_dockerfile_never_raises MoreSamples.full_disk_env
              Sample.cloned "FROM python:3.11" "Dockerfile_proposed")
    as (_ & _ & H).
  destruct (H "/tmp/testing-ml" eq_refl) as (_ & _ & He).
  apply (He (OtherError "[Errno 28] No space left on device")).
  reflexivity.
Defined.

Lemma validate_dockerfile_save_failure_witness :
  validate_dockerfile Sample.image_id MoreSamples.full_disk_confirming_env
    Sample.full_dockerfile true Sample.cloned
  = (Ret (Some ("An error occurred while saving the Dockerfile: "
                ++ "[Errno 28] No space left on device")),
     {| self := self Sample.cloned;
        events :=
          [ PromptAsk "Please confirm dockerfile validation";
            OpenWrite "/tmp/testing-ml/Dockerfile_proposed"
              (proposed_text Sample.full_dockerfile) ] |}).
Proof.
  apply (validate_dockerfile_save_failure Sample.image_id
           MoreSamples.full_disk_confirming_env Sample.cloned
           Sample.full_dockerfile (confirm := true)
           (path := "/tmp/testing-ml")
           (e := OtherError "[Errno 28] No space left on device")).
  - reflexivity.
  - simpl. lia.
  - intros _. reflexivity.
  - reflexivity.
Defined.

Lemma validate_dockerfile_confirmation_witness :
  validate_dockerfile Sample.image_id MoreSamples.busy_image_env
    Sample.full_dockerfile true Sample.cloned
  = (Ret (Some MSG_NOT_READY),
     {| self := self Sample.cloned;
        events := [PromptAsk "Please confirm dockerfile validation"] |}).
Proof.
  destruct (validate_dockerfile_confirmation Sample.image_id
              MoreSamples.busy_image_env Sample.cloned
              Sample.full_dockerfile (path := "/tmp/testing-ml"))
    as (H & _ & _).
  - reflexivity.
  - simpl. lia.
  - apply H; discriminate.
Defined.

Lemma cleanup_dockerfile_reports_witness :
  exists es,
    events (snd (_cleanup_dockerfile Sample.env "sha256:0a1b"
                   "/tmp/testing-ml/Dockerfile_proposed" Sample.cloned))
    = es
    /\ In (OsRemove "/tmp/testing-ml/Dockerfile_proposed") es
    /\ In (Log "info" "Image removed successfully!") es.
Proof.
  destruct (cleanup_dockerfile_reports Sample.env Sample.cloned
              "sha256:0a1b" "/tmp/testing-ml/Dockerfile_proposed")
    as (es & Ht & Hrm & _ & _ & Hok & _).
  - right. reflexivity.
  - exists es. split; [exact Ht|]. split.
    + apply Hrm. reflexivity.
    + apply Hok. exists (ImageNotFound "No such image").
      split; [reflexivity|]. right. split; reflexivity.
Defined.

Lemma validate_dockerfile_success_witness :
  fst (validate_dockerfile Sample.image_id Sample.building_env
         Sample.full_dockerfile true Sample.cloned)
  = Ret (Some ("Docker image built successfully and build time took:"
               ++ "12.34" ++ " Seconds...")).
Proof.
  destruct (validate_dockerfile_success Sample.image_id
              Sample.building_env Sample.cloned Sample.full_dockerfile
              (confirm := true) (path := "/tmp/testing-ml")
              (image := "sha256:0a1b")
              (logs := ["Step 1/2 : FROM python"]))
    as (_ & H & _).
  - reflexivity.
  - simpl. lia.
  - intros _. reflexivity.
  - reflexivity.
  - reflexivity.
  - reflexivity.
  - apply H. reflexivity.
Defined.

Lemma validate_dockerfile_cleanup_error_escapes_witness :
  fst (validate_dockerfile Sample.image_id
         MoreSamples.busy_image_confirming_env Sample.full_dockerfile true
         Sample.cloned)
  = Raise (DockerException "conflict: image is being used").
Proof.
  apply (validate_dockerfile_cleanup_error_escapes Sample.image_id
           MoreSamples.busy_image_confirming_env Sample.cloned
           Sample.full_dockerfile (confirm := true)
           (path := "/tmp/testing-ml") (image := "sha256:0a1b")
           (logs := ["Step 1/2 : FROM python"])).
  - reflexivity.
  - simpl. lia.
  - intros _. reflexivity.
  - reflexivity.
  - reflexivity.
  - reflexivity.
  - left. reflexivity.
  - reflexivity.
  - reflexivity.
Defined.


Lemma no_delegation_after_a_response_witness :
  process_pending_message Sample.content Sample.env MoreSamples.answered
  = (Ret tt, MoreSamples.answered).
Proof.
  destruct (no_delegation_after_a_response Sample.content Sample.env
              MoreSamples.answered MoreSamples.answered) as (H & _).
  apply (H "FROM python:3.11"); reflexivity.
Defined.

Lemma delegation_without_agent_or_message_witness :
  process_pending_message Sample.content Sample.env Sample.fresh
  = (Raise (AttributeError "'NoneType' object has no attribute 'do_task'"),
     Sample.fresh)
  /\ process_pending_message Sample.content Sample.env
       MoreSamples.nothing_pending
     = (Raise (AttributeError "'NoneType' object has no attribute 'content'"),
        MoreSamples.nothing_pending).
Proof.
  split.
  - destruct (delegation_without_agent_or_message Sample.content
                Sample.env Sample.fresh (w1 := Sample.fresh)
                eq_refl eq_refl) as (H & _).
    apply H. reflexivity.
  - destruct (delegation_without_agent_or_message Sample.content
                Sample.env MoreSamples.nothing_pending
                (w1 := MoreSamples.nothing_pending) eq_refl eq_refl)
      as (_ & H).
    apply (H 0); reflexivity.
Defined.

Lemma delegation_without_result_witness :
  exists w2,
    process_pending_message Sample.content
      (MoreSamples.make_env (Ret tt) (Ret tt) None) Sample.cloned
    = (Ret tt, w2)
    /\ current_response (base (self w2)) = None
    /\ pending_message (base (self w2))
       = Some "Which base image fits this repo?"
    /\ code_chat_agent (self w2) = Some 1.
Proof.
  destruct (delegation_without_result Sample.content
              (MoreSamples.make_env (Ret tt) (Ret tt) None) Sample.cloned
              (w1 := Sample.cloned) (sub := 0) (sub' := 1)
              (pending := "Which base image fits this repo?")
              eq_refl eq_refl eq_refl eq_refl eq_refl)
    as (w2 & Hrun & Hc & Hp & _ & Hs & _).
  exists w2. repeat split; assumption.
Defined.

Lemma ask_url_invalid_url_raises_witness :
  ask_url (Message := Sample.Message) (Task := Sample.Task)
    (MoreSamples.url_env "github.com/hello/world" true) 3
    MoreSamples.ask_url_message Sample.fresh
  = (Raise (UnboundLocalError "url_model"),
     {| self := self Sample.fresh;
        events :=
          [ PromptAsk PROMPT_URL;
            PromptAsk
              (PROMPT_INVALID_URL
                 (ValueError "invalid or missing URL scheme")) ] |}).
Proof.
  apply (ask_url_invalid_url_raises (Message := Sample.Message)
           (Task := Sample.Task)
           (MoreSamples.url_env "github.com/hello/world" true) 2
           MoreSamples.ask_url_message Sample.fresh
           (e := ValueError "invalid or missing URL scheme")).
  - reflexivity.
  - reflexivity.
Defined.

Lemma ask_url_sets_up_the_repository_witness :
  exists text w',
    ask_url (Message := Sample.Message) (Task := Sample.Task)
      (MoreSamples.url_env "" true) 1 MoreSamples.ask_url_message Sample.fresh
    = (Ret (Some text), w')
    /\ url (self w') = DEFAULT_URL
    /\ repo_path (self w') = Some "/tmp/testing-ml"
    /\ PyStr.occurs_in
         (String.concat PyStr.nl ["src"; "tests"; "README.md"; "setup.py"])
         text.
Proof.
  eexists. eexists. split.
  - apply (ask_url_sets_up_the_repository (Message := Sample.Message)
             (Task := Sample.Task) (MoreSamples.url_env "" true) 0
             MoreSamples.ask_url_message Sample.fresh (u := DEFAULT_URL)).
    reflexivity.
  - split; [reflexivity|]. split; [reflexivity|].
    apply PyStrFacts.contains_spec. reflexivity.
Defined.

Lemma fallback_after_ask_url_witness :
  handle_message_fallback ""
    (snd (ask_url (Message := Sample.Message) (Task := Sample.Task)
            (MoreSamples.url_env "" true) 1 MoreSamples.ask_url_message
            Sample.fresh))
  = (Ret None,
     snd (ask_url (Message := Sample.Message) (Task := Sample.Task)
            (MoreSamples.url_env "" true) 1 MoreSamples.ask_url_message
            Sample.fresh))
  /\ fst (handle_message_fallback ""
            (snd (ask_url (Message := Sample.Message) (Task := Sample.Task)
                    (MoreSamples.url_env "" false) 1
                    MoreSamples.ask_url_message Sample.fresh)))
     = Ret (Some MSG_URL_NOT_SENT).
Proof.
  split.
  - destruct (fallback_after_ask_url (Message := Sample.Message)
                (Task := Sample.Task) (MoreSamples.url_env "" true) 0
                MoreSamples.ask_url_message Sample.fresh (u := DEFAULT_URL)
                eq_refl) as (H & _).
    apply (H "/tmp/testing-ml"). reflexivity.
  - destruct (fallback_after_ask_url (Message := Sample.Message)
                (Task := Sample.Task) (MoreSamples.url_env "" false) 0
                MoreSamples.ask_url_message Sample.fresh (u := DEFAULT_URL)
                eq_refl) as (_ & H).
    rewrite (H eq_refl "").
    + reflexivity.
    + rewrite <- PyStrFacts.contains_spec. discriminate.
Defined.

End MoreRuns.
